(** * posts: request handlers of the blogging backend

    A shallow embedding of [posts/views.py] and [posts/urls.py].  The
    handlers are thin: they read and write the [Post] table through the
    object-relational mapper, validate and render through [PostSerializer],
    and are guarded by the permission classes listed on each view.  The
    persisted state is threaded explicitly: a handler maps a database and a
    request to an outcome and a database. *)

From Stdlib Require Import ZArith List Bool String Lia.
From stdpp Require Import base list strings gmap.
Import ListNotations.

Local Open Scope string_scope.
Local Open Scope Z_scope.

(** ** rest_framework.status *)

Definition HTTP_200_OK : Z := 200.
Definition HTTP_201_CREATED : Z := 201.
Definition HTTP_204_NO_CONTENT : Z := 204.
Definition HTTP_400_BAD_REQUEST : Z := 400.
Definition HTTP_401_UNAUTHORIZED : Z := 401.
Definition HTTP_403_FORBIDDEN : Z := 403.
Definition HTTP_404_NOT_FOUND : Z := 404.
Definition HTTP_405_METHOD_NOT_ALLOWED : Z := 405.
Definition HTTP_500_INTERNAL_SERVER_ERROR : Z := 500.

(** ** Requests *)

Inductive Method := GET | HEAD | OPTIONS | POST | PUT | PATCH | DELETE.

#[global] Instance Method_eq_dec : EqDecision Method.
Proof. solve_decision. Defined.

(** [rest_framework.permissions.SAFE_METHODS] *)
Definition SAFE_METHODS : list Method := [GET; HEAD; OPTIONS].

(** A scalar of a parsed JSON body. *)
Inductive json :=
| JNull
| JBool (b : bool)
| JNum (n : Z)
| JStr (s : string).

#[global] Instance json_eq_dec : EqDecision json.
Proof. solve_decision. Defined.

(** Modelled from the spec: the [User] model belongs to the authentication
    system and is not among the sources; an identity has a key and a
    username, the two attributes the handlers and filters refer to. *)
Record User := mkUser { user_pk : Z; username : string }.

#[global] Instance User_eq_dec : EqDecision User.
Proof. solve_decision. Defined.

(** [request.user] *)
Inductive Identity :=
| AnonymousUser
| Authenticated (u : User).

Definition is_authenticated (who : Identity) : bool :=
  match who with
  | AnonymousUser => false
  | Authenticated _ => true
  end.

(** [request.query_params] is a multi-valued dictionary: the pairs of the
    query string in order.  [get] answers the last value given for a key. *)
Fixpoint QueryDict_get (q : list (string * string)) (key : string) : option string :=
  match q with
  | [] => None
  | (k, v) :: rest =>
      match QueryDict_get rest key with
      | Some later => Some later
      | None => if String.eqb k key then Some v else None
      end
  end.

Record Request := mkRequest {
  method : Method;
  user : Identity;
  data : gmap string json;
  query_params : list (string * string)
}.

(** ** The persisted state *)

(** Modelled from the spec: [posts/models.py] is not among the sources.  A
    row of the [Post] table has a system-assigned integer key, a title and
    a content text, the key of the authoring user and a system-assigned
    creation time. *)
Record Post := mkPost {
  post_pk : Z;
  title : string;
  content : string;
  author : Z;
  created_at : Z
}.

#[global] Instance Post_eq_dec : EqDecision Post.
Proof. solve_decision. Defined.

(** The database behind the object-relational mapper: the user table
    (owned by the authentication system and only read here), the post table
    in row order, the key sequence of the post table and the clock that
    stamps new rows. *)
Record Db := mkDb {
  users : list User;
  posts : list Post;
  next_pk : Z;
  clock : Z
}.

Definition set_posts (db : Db) (rows : list Post) : Db :=
  {| users := users db; posts := rows; next_pk := next_pk db; clock := clock db |}.

Module Objects.

(** [Post.objects.all()] *)
Definition all (db : Db) : list Post := posts db.

(** [Post.objects.get(pk=post_id)]; [None] stands for [Post.DoesNotExist]. *)
Definition get (db : Db) (pk : Z) : option Post :=
  find (fun p => post_pk p =? pk) (posts db).

(** [User.objects.get(pk=...)], the row an author key refers to. *)
Definition get_user (db : Db) (pk : Z) : option User :=
  find (fun u => user_pk u =? pk) (users db).

(** The value of [author__username] on a row: a join with the user table. *)
Definition author_username (db : Db) (p : Post) : option string :=
  username <$> get_user db (author p).

(** [Post.objects.filter(author__username=name)]: exact comparison. *)
Definition filter_author_username (db : Db) (name : string) : list Post :=
  List.filter
    (fun p => match author_username db p with
              | Some n => String.eqb n name
              | None => false
              end)
    (posts db).

(** [Post.objects.create(...)]: the row takes the next key of the
    sequence and the current time, and is appended. *)
Definition create (db : Db) (t c : string) (a : Z) : Post * Db :=
  let p := mkPost (next_pk db) t c a (clock db) in
  (p, {| users := users db; posts := posts db ++ [p];
         next_pk := next_pk db + 1; clock := clock db |}).

(** [instance.save()] on a fetched row: the row with that key is rewritten. *)
Definition save (db : Db) (p : Post) : Db :=
  set_posts db (map (fun r => if post_pk r =? post_pk p then p else r) (posts db)).

(** [instance.delete()]: the row with that key is removed. *)
Definition delete (db : Db) (p : Post) : Db :=
  set_posts db (List.filter (fun r => negb (post_pk r =? post_pk p)) (posts db)).

End Objects.

(** ** Responses and exceptions *)

(** What a [Response] carries as [data]. *)
Inductive Data :=
| DNone                                        (* no data given *)
| DObject (o : gmap string json)               (* a dictionary of scalars *)
| DList (l : list (gmap string json))          (* a list of dictionaries *)
| DErrors (e : gmap string (list string))      (* field name to messages *)
| DNested (o : gmap string json) (key : string) (l : list (gmap string json))
                                               (* a dictionary with one list-valued key *)
| DMetadata.                                   (* the description answered to OPTIONS *)

#[global] Instance Data_eq_dec : EqDecision Data.
Proof. solve_decision. Defined.

Record HttpResponse := mkResponse { body : Data; status_code : Z }.

(** [Response(data, status=None)]: the status defaults to 200. *)
Definition Response (d : Data) (status : option Z) : HttpResponse :=
  {| body := d; status_code := default HTTP_200_OK status |}.

Inductive Exn :=
| Http404 (msg : string)
| NotAuthenticated
| PermissionDenied
| MethodNotAllowed (m : Method)
| Unhandled.                       (* any exception the framework does not render *)

(** A handler either returns a response or raises. *)
Definition Outcome : Type := Exn + HttpResponse.
Definition Return (r : HttpResponse) : Outcome := inr r.
Definition Raise (e : Exn) : Outcome := inl e.

Definition Handler : Type := Db -> Request -> Outcome * Db.

(** [django.shortcuts.get_object_or_404(Post, pk=post_id)] *)
Definition get_object_or_404 (db : Db) (pk : Z) : Exn + Post :=
  match Objects.get db pk with
  | Some post => inr post
  | None => inl (Http404 "No Post matches the given query.")
  end.

Definition method_name (m : Method) : string :=
  match m with
  | GET => "GET" | HEAD => "HEAD" | OPTIONS => "OPTIONS" | POST => "POST"
  | PUT => "PUT" | PATCH => "PATCH" | DELETE => "DELETE"
  end.

Definition detail (msg : string) : Data := DObject {[ "detail" := JStr msg ]}.

(** [rest_framework.views.exception_handler]: an exception raised below
    [dispatch] is rendered as a response with a [detail] body. *)
Definition handle_exception (e : Exn) : HttpResponse :=
  match e with
  | Http404 msg => Response (detail msg) (Some HTTP_404_NOT_FOUND)
  | NotAuthenticated =>
      Response (detail "Authentication credentials were not provided.")
               (Some HTTP_401_UNAUTHORIZED)
  | PermissionDenied =>
      Response (detail "You do not have permission to perform this action.")
               (Some HTTP_403_FORBIDDEN)
  | MethodNotAllowed m =>
      Response (detail ("Method " +:+ method_name m +:+ " not allowed."))
               (Some HTTP_405_METHOD_NOT_ALLOWED)
  | Unhandled => Response DNone (Some HTTP_500_INTERNAL_SERVER_ERROR)
  end.

(** ** PostSerializer *)

Module PostSerializer.

(** Modelled from the spec: [posts/serializers.py] is not among the
    sources.  The representation of a post has the fields [id], [title],
    [content], [author] and [created_at]; the author is rendered as the
    reference a payload supplies it by, the key of the user. *)
Definition to_representation (p : Post) : gmap string json :=
  <[ "id" := JNum (post_pk p) ]>
  (<[ "title" := JStr (title p) ]>
  (<[ "content" := JStr (content p) ]>
  (<[ "author" := JNum (author p) ]>
  (<[ "created_at" := JNum (created_at p) ]> ∅)))).

(** A serializer is built from an optional instance and the request data:
    [PostSerializer(data=...)] or [PostSerializer(post, data=...)]. *)
Record t := init { instance : option Post; initial_data : gmap string json }.

(** Modelled from the spec: a text field of the Post schema is required
    and must be text. *)
Definition run_text (d : gmap string json) (field : string) : list string + string :=
  match d !! field with
  | None => inl ["This field is required."]
  | Some (JStr s) => inr s
  | Some JNull => inl ["This field may not be null."]
  | Some _ => inl ["Not a valid string."]
  end.

(** Modelled from the spec: the author of a post is the reference the
    payload supplies.  The handlers pass the serializer the request data
    and nothing else, and every post has exactly one author, so the
    reference is required and must name an existing user. *)
Definition run_author (db : Db) (d : gmap string json) : list string + Z :=
  match d !! "author" with
  | None => inl ["This field is required."]
  | Some (JNum pk) =>
      match Objects.get_user db pk with
      | Some _ => inr pk
      | None => inl ["Invalid pk - object does not exist."]
      end
  | Some JNull => inl ["This field may not be null."]
  | Some _ => inl ["Incorrect type. Expected pk value."]
  end.

Definition field_error {A} (field : string) (r : list string + A)
  : gmap string (list string) :=
  match r with
  | inl msgs => {[ field := msgs ]}
  | inr _ => ∅
  end.

(** [serializer.errors]: the messages of the failing fields, by field. *)
Definition errors (db : Db) (s : t) : gmap string (list string) :=
  field_error "title" (run_text (initial_data s) "title")
  ∪ field_error "content" (run_text (initial_data s) "content")
  ∪ field_error "author" (run_author db (initial_data s)).

Record Validated := mkValidated { v_title : string; v_content : string; v_author : Z }.

(** [serializer.is_valid()]: true exactly when every field validates, and
    then [validated_data] is available; [None] stands for [False]. *)
Definition is_valid (db : Db) (s : t) : option Validated :=
  match run_text (initial_data s) "title",
        run_text (initial_data s) "content",
        run_author db (initial_data s) with
  | inr ti, inr co, inr au => Some (mkValidated ti co au)
  | _, _, _ => None
  end.

(** Modelled from the spec: creating persists one new row with the
    submitted title, content and author. *)
Definition create (db : Db) (v : Validated) : Post * Db :=
  Objects.create db (v_title v) (v_content v) (v_author v).

(** Modelled from the spec: updating replaces title and content in full;
    the author is established at creation and is not reassigned. *)
Definition update (db : Db) (post : Post) (v : Validated) : Post * Db :=
  let post' := mkPost (post_pk post) (v_title v) (v_content v)
                      (author post) (created_at post) in
  (post', Objects.save db post').

(** [serializer.save()]: update the instance when there is one, create
    otherwise.  The saved instance is what [serializer.data] renders. *)
Definition save (db : Db) (s : t) (v : Validated) : Post * Db :=
  match instance s with
  | Some post => update db post v
  | None => create db v
  end.

(** [serializer.data] of an instance *)
Definition data_of (p : Post) : Data := DObject (to_representation p).

(** [PostSerializer(posts, many=True).data] *)
Definition many (ps : list Post) : Data := DList (map to_representation ps).

End PostSerializer.

(** ** Permission classes *)

(** The interface of [rest_framework.permissions.BasePermission]: a check
    on the request, and a check on the request and one object. *)
Record BasePermission := mkPermission {
  has_permission : Request -> bool;
  has_object_permission : Request -> Post -> bool
}.

Definition is_safe (m : Method) : bool := bool_decide (m ∈ SAFE_METHODS).

Definition AllowAny : BasePermission :=
  {| has_permission := fun _ => true;
     has_object_permission := fun _ _ => true |}.

Definition IsAuthenticated : BasePermission :=
  {| has_permission := fun request => is_authenticated (user request);
     has_object_permission := fun _ _ => true |}.

Definition IsAuthenticatedOrReadOnly : BasePermission :=
  {| has_permission := fun request =>
       is_safe (method request) || is_authenticated (user request);
     has_object_permission := fun _ _ => true |}.

(** [request.user == obj.author] *)
Definition is_author (who : Identity) (obj : Post) : bool :=
  match who with
  | Authenticated u => user_pk u =? author obj
  | AnonymousUser => false
  end.

(** Modelled from the spec: [posts/permissions.py] is not among the
    sources.  The author-or-read-only policy is an object-level check
    against the target post: safe methods are permitted for any caller,
    other methods only when the caller is the author of the post.  The
    check on the request alone is the one inherited from
    [BasePermission], which permits. *)
Definition AuthorOrReadOnly : BasePermission :=
  {| has_permission := fun _ => true;
     has_object_permission := fun request obj =>
       is_safe (method request) || is_author (user request) obj |}.

(** ** rest_framework.views.APIView *)

Record APIView := mkView {
  permission_classes : list BasePermission;
  http_method_names : list Method;
  handler : Method -> option Handler   (* the method of that name, if defined *)
}.

(** [APIView.permission_denied]: which exception a refusal raises. *)
Definition permission_denied (request : Request) : Exn :=
  if is_authenticated (user request) then PermissionDenied else NotAuthenticated.

(** [APIView.check_permissions], run by [initial] before any handler. *)
Definition check_permissions (view : APIView) (request : Request) : Exn + unit :=
  if forallb (fun p => has_permission p request) (permission_classes view)
  then inr tt
  else inl (permission_denied request).

(** [APIView.check_object_permissions]: runs only where a handler calls
    it (or calls [get_object] of a generic view). *)
Definition check_object_permissions (view : APIView) (request : Request) (obj : Post)
  : Exn + unit :=
  if forallb (fun p => has_object_permission p request obj) (permission_classes view)
  then inr tt
  else inl (permission_denied request).

Definition http_method_not_allowed : Handler :=
  fun db request => (Raise (MethodNotAllowed (method request)), db).

(** [APIView.options] *)
Definition options : Handler :=
  fun db request => (Return (Response DMetadata (Some HTTP_200_OK)), db).

(** The response of an outcome: what was returned, or what was raised as
    [handle_exception] renders it. *)
Definition rendered (outcome : Outcome) : HttpResponse :=
  match outcome with
  | inl exc => handle_exception exc
  | inr response => response
  end.

(** [APIView.dispatch]: [initial] checks the permissions, then the handler
    named after the method runs; whatever is raised is rendered by
    [handle_exception]. *)
Definition dispatch (view : APIView) (db : Db) (request : Request) : HttpResponse * Db :=
  match check_permissions view request with
  | inl exc => (handle_exception exc, db)
  | inr _ =>
      let h :=
        if bool_decide (method request ∈ http_method_names view)
        then default http_method_not_allowed (handler view (method request))
        else http_method_not_allowed in
      let '(outcome, db') := h db request in
      (rendered outcome, db')
  end.

(** The method names a class-based view answers to. *)
Definition View_http_method_names : list Method :=
  [GET; POST; PUT; PATCH; DELETE; HEAD; OPTIONS].

(** A class-based view with the given [get], [post], [put] and [delete]
    methods: [head] falls back on [get], [options] is inherited. *)
Definition class_view (perms : list BasePermission)
    (get post put delete : option Handler) : APIView :=
  {| permission_classes := perms;
     http_method_names := View_http_method_names;
     handler := fun m =>
       match m with
       | GET => get
       | HEAD => get
       | OPTIONS => Some options
       | POST => post
       | PUT => put
       | PATCH => None
       | DELETE => delete
       end |}.

(** [@api_view(methods)] with [@permission_classes(perms)] around a
    function: the function handles the listed methods, [options] is added. *)
Definition api_view (methods : list Method) (perms : list BasePermission)
    (func : Handler) : APIView :=
  {| permission_classes := perms;
     http_method_names := methods ++ [OPTIONS];
     handler := fun m =>
       if bool_decide (m ∈ methods) then Some func
       else if bool_decide (m = OPTIONS) then Some options
       else None |}.

(** ** posts/views.py *)

Record PageNumberPagination := mkPaginator {
  page_size : nat;
  page_query_param : string;
  page_size_query_param : string
}.

Definition CustomPaginator : PageNumberPagination :=
  {| page_size := 3;
     page_query_param := "page";
     page_size_query_param := "page_size" |}.

(** [homepage], wrapped below by [@api_view(["GET"])] and [AllowAny]. *)
Definition homepage_func : Handler :=
  fun db request =>
    if bool_decide (method request = GET)
    then (Return (Response (DObject {[ "message" := JStr "Hello, World!" ]})
                           (Some HTTP_200_OK)), db)
    else (Raise Unhandled, db).   (* falls off the end: no response *)

Definition homepage : APIView := api_view [GET] [AllowAny] homepage_func.

Module PostListCreateView.

Definition serializer_class := PostSerializer.init.
Definition pagination_class : PageNumberPagination := CustomPaginator.

Definition get : Handler :=
  fun db request =>
    let posts := Objects.all db in
    let serializer_data := PostSerializer.many posts in
    (Return (Response serializer_data (Some HTTP_200_OK)), db).

Definition post : Handler :=
  fun db request =>
    let serializer := PostSerializer.init None (data request) in
    match PostSerializer.is_valid db serializer with
    | Some validated_data =>
        let '(saved, db') := PostSerializer.save db serializer validated_data in
        (Return (Response (PostSerializer.data_of saved) (Some HTTP_201_CREATED)), db')
    | None =>
        (Return (Response (DErrors (PostSerializer.errors db serializer))
                          (Some HTTP_400_BAD_REQUEST)), db)
    end.

Definition as_view : APIView :=
  class_view [IsAuthenticatedOrReadOnly] (Some get) (Some post) None None.

End PostListCreateView.

Module PostRetriveUpdateDeleteView.

Definition serializer_class := PostSerializer.init.

Definition get (post_id : Z) : Handler :=
  fun db request =>
    match get_object_or_404 db post_id with
    | inl exc => (Raise exc, db)
    | inr post =>
        (Return (Response (PostSerializer.data_of post) (Some HTTP_200_OK)), db)
    end.

Definition put (post_id : Z) : Handler :=
  fun db request =>
    match Objects.get db post_id with
    | None => (Return (Response DNone (Some HTTP_404_NOT_FOUND)), db)
    | Some post =>
        let serializer := serializer_class (Some post) (data request) in
        match PostSerializer.is_valid db serializer with
        | Some validated_data =>
            let '(saved, db') := PostSerializer.save db serializer validated_data in
            (Return (Response (PostSerializer.data_of saved) None), db')
        | None =>
            (Return (Response (DErrors (PostSerializer.errors db serializer))
                              (Some HTTP_400_BAD_REQUEST)), db)
        end
    end.

Definition delete (post_id : Z) : Handler :=
  fun db request =>
    match get_object_or_404 db post_id with
    | inl exc => (Raise exc, db)
    | inr post =>
        let db' := Objects.delete db post in
        (Return (Response (DObject {[ "message" := JStr "Post deleted successfully." ]})
                          (Some HTTP_204_NO_CONTENT)), db')
    end.

Definition as_view (post_id : Z) : APIView :=
  class_view [AuthorOrReadOnly]
    (Some (get post_id)) None (Some (put post_id)) (Some (delete post_id)).

End PostRetriveUpdateDeleteView.

Module CurrentUserPostsSerializer.

(** Modelled from the spec: [users/serializers.py] is not among the
    sources.  The serialized view of a user embeds that user's posts. *)
Definition data_of (db : Db) (who : Identity) : Data :=
  match who with
  | Authenticated u =>
      DNested (<[ "id" := JNum (user_pk u) ]>
               (<[ "username" := JStr (username u) ]> ∅))
              "posts"
              (map PostSerializer.to_representation
                   (List.filter (fun p => author p =? user_pk u) (posts db)))
  | AnonymousUser => DNested ∅ "posts" []
  end.

End CurrentUserPostsSerializer.

Definition get_posts_for_current_user_func : Handler :=
  fun db request =>
    let user := user request in
    let serializer_data := CurrentUserPostsSerializer.data_of db user in
    (Return (Response serializer_data (Some HTTP_200_OK)), db).

Definition get_posts_for_current_user : APIView :=
  api_view [GET] [IsAuthenticated] get_posts_for_current_user_func.

(** The truth value of [username] in [if username:]: neither [None] nor
    the empty string. *)
Definition truthy (s : option string) : bool :=
  match s with
  | None => false
  | Some EmptyString => false
  | Some (String _ _) => true
  end.

Definition list_posts_for_author_func : Handler :=
  fun db request =>
    let username := QueryDict_get (query_params request) "username" in
    let posts :=
      if truthy username
      then Objects.filter_author_username db (default EmptyString username)
      else Objects.all db in
    let serializer_data := PostSerializer.many posts in
    (Return (Response serializer_data (Some HTTP_200_OK)), db).

Definition list_posts_for_author : APIView :=
  api_view [GET] [IsAuthenticated] list_posts_for_author_func.

(** ** posts/urls.py *)

(** The paths of [urlpatterns]; [<int:post_id>] matches digits only. *)
Inductive Route :=
| path_homepage
| path_posts
| path_posts_item (post_id : N)
| path_current_user
| path_list_post.

Definition urlpatterns (r : Route) : APIView :=
  match r with
  | path_homepage => homepage
  | path_posts => PostListCreateView.as_view
  | path_posts_item post_id => PostRetriveUpdateDeleteView.as_view (Z.of_N post_id)
  | path_current_user => get_posts_for_current_user
  | path_list_post => list_posts_for_author
  end.

(** One request served against the database. *)
Definition serve (db : Db) (r : Route) (request : Request) : HttpResponse * Db :=
  dispatch (urlpatterns r) db request.

(** A sequence of requests served one after the other. *)
Fixpoint serve_all (db : Db) (reqs : list (Route * Request)) : Db :=
  match reqs with
  | [] => db
  | (r, request) :: rest => serve_all (snd (serve db r request)) rest
  end.

(** ** Sample data *)

Module Sample.

Definition alice : User := mkUser 1 "alice".
Definition bob : User := mkUser 2 "bob".

(** A payload with the three fields of the schema. *)
Definition payload (t c : string) (a : Z) : gmap string json :=
  <[ "title" := JStr t ]> (<[ "content" := JStr c ]> (<[ "author" := JNum a ]> ∅)).

Definition first_post : Post := mkPost 1 "A" "B" (user_pk alice) 100.

(** Two users, one post written by alice. *)
Definition db : Db :=
  {| users := [alice; bob]; posts := [first_post]; next_pk := 2; clock := 200 |}.

(** Four posts, more than one page of [CustomPaginator]. *)
Definition db_four : Db :=
  {| users := [alice; bob];
     posts := [mkPost 1 "A" "B" 1 100; mkPost 2 "C" "D" 1 101;
               mkPost 3 "E" "F" 2 102; mkPost 4 "G" "H" 1 103];
     next_pk := 5; clock := 200 |}.

End Sample.

(** The key sequence is ahead of every key in the table. *)
Definition keys_below_sequence (db : Db) : Prop :=
  forall p, In p (posts db) -> post_pk p < next_pk db.

(** The key of the post table is unique. *)
Definition unique_keys (db : Db) : Prop :=
  forall p q, In p (posts db) -> In q (posts db) -> post_pk p = post_pk q -> p = q.

(** A well-formed table: unique keys, all behind the key sequence. *)
Definition table_well_formed (db : Db) : Prop :=
  unique_keys db /\ keys_below_sequence db.

(** Every row with key [k] has author [a]. *)
Definition author_fixed (k a : Z) (db : Db) : Prop :=
  forall p, In p (posts db) -> post_pk p = k -> author p = a.

(** What a sequence of requests maintains about the post with key [k]:
    the key is behind the sequence, so is every key in the table, and the
    author of the post, while it exists, is [a]. *)
Definition author_invariant (k a : Z) (db : Db) : Prop :=
  k < next_pk db /\ keys_below_sequence db /\ author_fixed k a db.

(** A handler maintains a property of the database. *)
Definition maintains (P : Db -> Prop) (h : Handler) : Prop :=
  forall db request, P db -> P (snd (h db request)).

(** ** Statements under test *)

(** The author field of a representation when the author is [u]. *)
Definition author_field (u : User) : json := JNum (user_pk u).

(** Creation as claimed: a valid payload is answered 201 with the
    submitted title and content and with the caller as author. *)
Definition create_sets_author_to_caller (db : Db) (u : User)
    (d : gmap string json) (q : list (string * string)) : Prop :=
  is_Some (PostSerializer.is_valid db (PostSerializer.init None d)) ->
  let response := fst (serve db path_posts (mkRequest POST (Authenticated u) d q)) in
  status_code response = 201 /\
  exists o, body response = DObject o /\
            o !! "title" = d !! "title" /\
            o !! "content" = d !! "content" /\
            o !! "author" = Some (author_field u).

(** Deletion of a missing post as claimed: 404 with an empty body. *)
Definition delete_missing_has_empty_body (db : Db) (post_id : N) (request : Request) : Prop :=
  method request = DELETE ->
  (forall p, In p (posts db) -> post_pk p <> Z.of_N post_id) ->
  let response := fst (serve db (path_posts_item post_id) request) in
  status_code response = 404 /\ body response = DNone.

(** * Properties *)

(** ** The object-relational mapper *)

Section ObjectsFacts.

Implicit Types (db : Db) (p : Post) (pk : Z).

Lemma get_Some_pk db pk p : Objects.get db pk = Some p -> post_pk p = pk.
Proof.
  unfold Objects.get. intros H. apply find_some in H as [_ H]. lia.
Qed.

Lemma get_Some_In db pk p : Objects.get db pk = Some p -> In p (posts db).
Proof. unfold Objects.get. intros H. now apply find_some in H. Qed.

Lemma get_None_iff db pk :
  Objects.get db pk = None <-> forall p, In p (posts db) -> post_pk p <> pk.
Proof.
  unfold Objects.get. split.
  - intros H p Hin Heq.
    pose proof (find_none _ _ H p Hin) as Hp. simpl in Hp. lia.
  - intros H. destruct (find _ _) as [p|] eqn:E; [|reflexivity].
    apply find_some in E as [Hin Hp]. exfalso. apply (H p Hin). lia.
Qed.

Lemma get_exists db pk :
  (exists p, In p (posts db) /\ post_pk p = pk) -> exists p, Objects.get db pk = Some p.
Proof.
  intros (p & Hin & Hpk). destruct (Objects.get db pk) as [q|] eqn:E; [eauto|].
  exfalso. rewrite get_None_iff in E. exact (E p Hin Hpk).
Qed.

(** Reading after [save]: the saved row is what its key now answers, and
    every other key answers as before. *)
Lemma get_save_eq db p q :
  Objects.get db (post_pk p) = Some q -> Objects.get (Objects.save db p) (post_pk p) = Some p.
Proof.
  unfold Objects.get, Objects.save. simpl.
  induction (posts db) as [|r rows IH]; simpl; [discriminate|].
  destruct (post_pk r =? post_pk p) eqn:E; simpl.
  - intros _. now rewrite Z.eqb_refl.
  - rewrite E. exact IH.
Qed.

Lemma get_save_ne db p pk :
  pk <> post_pk p -> Objects.get (Objects.save db p) pk = Objects.get db pk.
Proof.
  intros Hne. unfold Objects.get, Objects.save. simpl.
  induction (posts db) as [|r rows IH]; simpl; [reflexivity|].
  destruct (post_pk r =? post_pk p) eqn:E; simpl.
  - apply Z.eqb_eq in E.
    destruct (post_pk p =? pk) eqn:E1; [lia|].
    destruct (post_pk r =? pk) eqn:E2; [lia|]. exact IH.
  - destruct (post_pk r =? pk); [reflexivity|exact IH].
Qed.

(** Reading after [delete]: the key is gone, every other key answers as
    before. *)
Lemma get_delete_eq db p : Objects.get (Objects.delete db p) (post_pk p) = None.
Proof.
  apply get_None_iff. intros r Hin. unfold Objects.delete in Hin. simpl in Hin.
  apply filter_In in Hin as [_ H]. apply negb_true_iff in H. lia.
Qed.

Lemma get_delete_ne db p pk :
  pk <> post_pk p -> Objects.get (Objects.delete db p) pk = Objects.get db pk.
Proof.
  intros Hne. unfold Objects.get, Objects.delete. simpl.
  induction (posts db) as [|r rows IH]; simpl; [reflexivity|].
  destruct (post_pk r =? post_pk p) eqn:E; simpl.
  - apply Z.eqb_eq in E. destruct (post_pk r =? pk) eqn:E2; [lia|]. exact IH.
  - destruct (post_pk r =? pk); [reflexivity|exact IH].
Qed.

(** Reading after [create]: keys already answered are answered as before. *)
Lemma get_create_old db t c a pk q :
  Objects.get db pk = Some q -> Objects.get (snd (Objects.create db t c a)) pk = Some q.
Proof.
  unfold Objects.get, Objects.create. simpl. intros H.
  induction (posts db) as [|r rows IH]; simpl in *; [discriminate|].
  destruct (post_pk r =? pk); [exact H|]. now apply IH.
Qed.

Lemma get_create_other db t c a pk :
  pk <> next_pk db ->
  Objects.get (snd (Objects.create db t c a)) pk = Objects.get db pk.
Proof.
  intros Hne. unfold Objects.get, Objects.create. simpl.
  induction (posts db) as [|r rows IH]; simpl.
  - destruct (next_pk db =? pk) eqn:E; [lia|reflexivity].
  - destruct (post_pk r =? pk); [reflexivity|exact IH].
Qed.

End ObjectsFacts.

(** ** The serializer *)

Section SerializerFacts.

Variables (db : Db) (s : PostSerializer.t).

(** A valid payload carries the three fields as validated. *)
Lemma is_valid_Some_fields v :
  PostSerializer.is_valid db s = Some v ->
  PostSerializer.initial_data s !! "title" = Some (JStr (PostSerializer.v_title v)) /\
  PostSerializer.initial_data s !! "content" = Some (JStr (PostSerializer.v_content v)) /\
  PostSerializer.initial_data s !! "author" = Some (JNum (PostSerializer.v_author v)).
Proof.
  unfold PostSerializer.is_valid, PostSerializer.run_text, PostSerializer.run_author.
  destruct (PostSerializer.initial_data s !! "title") as [[| | |ti]|]; try discriminate.
  destruct (PostSerializer.initial_data s !! "content") as [[| | |co]|]; try discriminate.
  destruct (PostSerializer.initial_data s !! "author") as [[| |au|]|]; try discriminate.
  destruct (Objects.get_user db au); try discriminate.
  intros [= <-]. simpl. auto.
Qed.

(** [is_valid()] is false exactly when [errors] is not empty. *)
Lemma is_valid_None_errors :
  PostSerializer.is_valid db s = None -> PostSerializer.errors db s <> ∅.
Proof.
  unfold PostSerializer.is_valid, PostSerializer.errors.
  destruct (PostSerializer.run_text _ "title") as [m1|]; cbn [PostSerializer.field_error].
  { intros _ E. apply (f_equal (fun m => m !! "title")) in E.
    rewrite lookup_empty in E.
    erewrite lookup_union_Some_l in E; [discriminate|].
    erewrite lookup_union_Some_l; [reflexivity|]. apply lookup_singleton_eq. }
  destruct (PostSerializer.run_text _ "content") as [m2|]; cbn [PostSerializer.field_error].
  { intros _ E. apply (f_equal (fun m => m !! "content")) in E.
    rewrite lookup_empty, (left_id_L ∅ (∪)) in E.
    erewrite lookup_union_Some_l in E; [discriminate|]. apply lookup_singleton_eq. }
  destruct (PostSerializer.run_author _ _) as [m3|]; cbn [PostSerializer.field_error].
  { intros _ E. apply (f_equal (fun m => m !! "author")) in E.
    rewrite lookup_empty, !(left_id_L ∅ (∪)), lookup_singleton_eq in E. discriminate. }
  discriminate.
Qed.

Lemma is_valid_Some_errors v :
  PostSerializer.is_valid db s = Some v -> PostSerializer.errors db s = ∅.
Proof.
  unfold PostSerializer.is_valid, PostSerializer.errors.
  destruct (PostSerializer.run_text _ "title"); [discriminate|].
  destruct (PostSerializer.run_text _ "content"); [discriminate|].
  destruct (PostSerializer.run_author _ _); [discriminate|].
  intros _. simpl. now rewrite !(left_id_L ∅ (∪)).
Qed.

(** The keys of [errors] are field names of the schema. *)
Lemma errors_field_keyed k :
  is_Some (PostSerializer.errors db s !! k) ->
  k = "title" \/ k = "content" \/ k = "author".
Proof.
  unfold PostSerializer.errors. intros [msgs H].
  apply lookup_union_Some_raw in H as [H|[_ H]].
  - apply lookup_union_Some_raw in H as [H|[_ H]].
    + left. unfold PostSerializer.field_error in H.
      destruct (PostSerializer.run_text _ "title"); [|now rewrite lookup_empty in H].
      apply lookup_singleton_Some in H. now destruct H.
    + right; left. unfold PostSerializer.field_error in H.
      destruct (PostSerializer.run_text _ "content"); [|now rewrite lookup_empty in H].
      apply lookup_singleton_Some in H. now destruct H.
  - right; right. unfold PostSerializer.field_error in H.
    destruct (PostSerializer.run_author _ _); [|now rewrite lookup_empty in H].
    apply lookup_singleton_Some in H. now destruct H.
Qed.

(** A payload without a title is reported under the key [title]. *)
Lemma errors_title_missing :
  PostSerializer.initial_data s !! "title" = None ->
  PostSerializer.is_valid db s = None /\
  PostSerializer.errors db s !! "title" = Some ["This field is required."].
Proof.
  intros H. unfold PostSerializer.is_valid, PostSerializer.errors.
  unfold PostSerializer.run_text at 1 3. rewrite H. split; [reflexivity|].
  apply lookup_union_Some_raw. left. apply lookup_union_Some_raw. left.
  apply lookup_singleton_eq.
Qed.

End SerializerFacts.

(** The rendered fields of a post. *)
Lemma to_representation_fields (p : Post) :
  PostSerializer.to_representation p !! "id" = Some (JNum (post_pk p)) /\
  PostSerializer.to_representation p !! "title" = Some (JStr (title p)) /\
  PostSerializer.to_representation p !! "content" = Some (JStr (content p)) /\
  PostSerializer.to_representation p !! "author" = Some (JNum (author p)).
Proof. repeat split; reflexivity. Qed.

(** ** Dispatch *)

(** The item view lets every request through [check_permissions]: the
    only class listed permits on the request alone. *)
Lemma item_check_permissions (post_id : Z) (request : Request) :
  check_permissions (PostRetriveUpdateDeleteView.as_view post_id) request = inr tt.
Proof. reflexivity. Qed.

(** What [dispatch] answers once the permissions let the request through
    and the method has a handler. *)
Lemma dispatch_handler (view : APIView) (db : Db) (request : Request) (h : Handler) :
  check_permissions view request = inr tt ->
  method request ∈ http_method_names view ->
  handler view (method request) = Some h ->
  dispatch view db request = (rendered (fst (h db request)), snd (h db request)).
Proof.
  intros Hperm Hin Hh. unfold dispatch. rewrite Hperm, Hh.
  rewrite bool_decide_eq_true_2 by exact Hin. simpl.
  now destruct (h db request).
Qed.

Lemma dispatch_item_get post_id db who d q :
  let request := mkRequest GET who d q in
  dispatch (PostRetriveUpdateDeleteView.as_view post_id) db request =
  (rendered (fst (PostRetriveUpdateDeleteView.get post_id db request)),
   snd (PostRetriveUpdateDeleteView.get post_id db request)).
Proof.
  intros request. apply dispatch_handler; [reflexivity| |reflexivity].
  simpl. unfold View_http_method_names. set_solver.
Qed.

Lemma dispatch_item_put post_id db who d q :
  let request := mkRequest PUT who d q in
  dispatch (PostRetriveUpdateDeleteView.as_view post_id) db request =
  (rendered (fst (PostRetriveUpdateDeleteView.put post_id db request)),
   snd (PostRetriveUpdateDeleteView.put post_id db request)).
Proof.
  intros request. apply dispatch_handler; [reflexivity| |reflexivity].
  simpl. unfold View_http_method_names. set_solver.
Qed.

Lemma dispatch_item_delete post_id db who d q :
  let request := mkRequest DELETE who d q in
  dispatch (PostRetriveUpdateDeleteView.as_view post_id) db request =
  (rendered (fst (PostRetriveUpdateDeleteView.delete post_id db request)),
   snd (PostRetriveUpdateDeleteView.delete post_id db request)).
Proof.
  intros request. apply dispatch_handler; [reflexivity| |reflexivity].
  simpl. unfold View_http_method_names. set_solver.
Qed.

Lemma dispatch_posts_get db who d q :
  let request := mkRequest GET who d q in
  dispatch PostListCreateView.as_view db request =
  (rendered (fst (PostListCreateView.get db request)),
   snd (PostListCreateView.get db request)).
Proof.
  intros request. apply dispatch_handler; [reflexivity| |reflexivity].
  simpl. unfold View_http_method_names. set_solver.
Qed.

Lemma dispatch_posts_post db u d q :
  let request := mkRequest POST (Authenticated u) d q in
  dispatch PostListCreateView.as_view db request =
  (rendered (fst (PostListCreateView.post db request)),
   snd (PostListCreateView.post db request)).
Proof.
  intros request. apply dispatch_handler; [reflexivity| |reflexivity].
  simpl. unfold View_http_method_names. set_solver.
Qed.

Lemma dispatch_list_post_get db u d q :
  let request := mkRequest GET (Authenticated u) d q in
  dispatch list_posts_for_author db request =
  (rendered (fst (list_posts_for_author_func db request)),
   snd (list_posts_for_author_func db request)).
Proof.
  intros request. apply dispatch_handler; [reflexivity| |reflexivity].
  simpl. set_solver.
Qed.

(** Behind [IsAuthenticated] an anonymous caller is answered 401 and the
    function does not run. *)
Lemma dispatch_anonymous_refused methods func db m d q :
  dispatch (api_view methods [IsAuthenticated] func) db (mkRequest m AnonymousUser d q) =
  (handle_exception NotAuthenticated, db).
Proof. reflexivity. Qed.

(** ** Reading endpoints *)

(** C5: a GET on the collection answers 200 with every row of the post
    table, serialized in table order, whoever calls and whatever the
    query string says; the list is as long as the table, and the paginator
    declared on the view (page size 3) is never consulted. *)
Theorem C5_list_returns_every_post (db : Db) (who : Identity)
    (d : gmap string json) (q : list (string * string)) :
  let response := fst (serve db path_posts (mkRequest GET who d q)) in
  status_code response = 200 /\
  page_size PostListCreateView.pagination_class = 3%nat /\
  exists l,
    body response = DList l /\
    l = map PostSerializer.to_representation (Objects.all db) /\
    length l = length (posts db).
Proof.
  unfold serve, urlpatterns. rewrite dispatch_posts_get. simpl.
  repeat split. eexists; repeat split. unfold Objects.all. apply length_map.
Qed.

(** With four rows in the table the list has four entries, one more than
    the declared page size. *)
Example list_exceeds_page_size :
  exists l,
    body (fst (serve Sample.db_four path_posts (mkRequest GET AnonymousUser ∅ []))) = DList l /\
    length l = 4%nat /\
    (page_size CustomPaginator < length l)%nat.
Proof. eexists. split; [reflexivity|]. simpl. lia. Qed.

(** C7: a GET on the item endpoint answers 200 with a representation
    whose [id] is the requested identifier when a post with that
    identifier exists, and 404 when none does. *)
Theorem C7_retrieve_by_id (db : Db) (post_id : N) (who : Identity)
    (d : gmap string json) (q : list (string * string)) :
  let response := fst (serve db (path_posts_item post_id) (mkRequest GET who d q)) in
  ((exists p, In p (posts db) /\ post_pk p = Z.of_N post_id) ->
   status_code response = 200 /\
   exists o, body response = DObject o /\ o !! "id" = Some (JNum (Z.of_N post_id))) /\
  ((forall p, In p (posts db) -> post_pk p <> Z.of_N post_id) ->
   status_code response = 404).
Proof.
  unfold serve, urlpatterns. rewrite dispatch_item_get.
  unfold PostRetriveUpdateDeleteView.get, get_object_or_404. split.
  - intros Hex. apply get_exists in Hex as [p Hp]. rewrite Hp. simpl.
    split; [reflexivity|]. eexists. split; [reflexivity|].
    apply get_Some_pk in Hp. rewrite <- Hp.
    apply to_representation_fields.
  - intros Hno. apply get_None_iff in Hno. rewrite Hno. reflexivity.
Qed.

Lemma C7_retrieve_by_id_witness :
  (status_code (fst (serve Sample.db (path_posts_item 1)
                       (mkRequest GET AnonymousUser ∅ []))) = 200 /\
   exists o, body (fst (serve Sample.db (path_posts_item 1)
                          (mkRequest GET AnonymousUser ∅ []))) = DObject o /\
             o !! "id" = Some (JNum 1)) /\
  status_code (fst (serve Sample.db (path_posts_item 7)
                      (mkRequest GET AnonymousUser ∅ []))) = 404.
Proof.
  split.
  - apply (C7_retrieve_by_id Sample.db 1 AnonymousUser ∅ []).
    exists Sample.first_post. split; [left; reflexivity|reflexivity].
  - apply (C7_retrieve_by_id Sample.db 7 AnonymousUser ∅ []).
    intros p [<-|[]]. simpl. lia.
Defined.

(** C10: the four GET handlers leave the database as they found it:
    collection list, item retrieve, current-user posts and
    posts-by-author, for every caller, payload and query string. *)
Theorem C10_get_leaves_store_unchanged (db : Db) (post_id : N) (who : Identity)
    (d : gmap string json) (q : list (string * string)) :
  let request := mkRequest GET who d q in
  snd (serve db path_posts request) = db /\
  snd (serve db (path_posts_item post_id) request) = db /\
  snd (serve db path_current_user request) = db /\
  snd (serve db path_list_post request) = db.
Proof.
  cbv zeta. unfold serve, urlpatterns. split; [|split; [|split]].
  - now rewrite dispatch_posts_get.
  - rewrite dispatch_item_get. unfold PostRetriveUpdateDeleteView.get.
    now destruct (get_object_or_404 db (Z.of_N post_id)).
  - now destruct who.
  - destruct who; [reflexivity|]. now rewrite dispatch_list_post_get.
Qed.

Lemma filter_author_username_In (db : Db) (name : string) (p : Post) :
  In p (Objects.filter_author_username db name) <->
  In p (posts db) /\ Objects.author_username db p = Some name.
Proof.
  unfold Objects.filter_author_username. rewrite filter_In.
  destruct (Objects.author_username db p) as [n|].
  - rewrite String.eqb_eq. split; intros [H1 H2]; split; congruence.
  - split; intros [_ H]; discriminate.
Qed.

Lemma truthy_Some (name : string) : name <> EmptyString -> truthy (Some name) = true.
Proof. destruct name; [congruence|reflexivity]. Qed.

(** C6: a GET on the posts-by-author endpoint by an authenticated caller
    answers 200.  With a non-empty [username] parameter the list holds the
    rows whose author's username is that very string, compared exactly,
    in table order, and is empty when no row matches; with the parameter
    absent or empty it holds every row. *)
Theorem C6_posts_by_author (db : Db) (u : User)
    (d : gmap string json) (q : list (string * string)) :
  let response := fst (serve db path_list_post (mkRequest GET (Authenticated u) d q)) in
  status_code response = 200 /\
  (forall name,
      QueryDict_get q "username" = Some name -> name <> EmptyString ->
      exists selected,
        body response = PostSerializer.many selected /\
        selected = Objects.filter_author_username db name /\
        (forall p, In p selected <->
                   In p (posts db) /\ Objects.author_username db p = Some name) /\
        ((forall p, In p (posts db) -> Objects.author_username db p <> Some name) ->
         body response = DList [])) /\
  (QueryDict_get q "username" = None \/ QueryDict_get q "username" = Some EmptyString ->
   body response = PostSerializer.many (posts db)).
Proof.
  cbv zeta. unfold serve, urlpatterns. rewrite dispatch_list_post_get.
  unfold list_posts_for_author_func. cbn [fst snd rendered Return query_params].
  split; [reflexivity|]. split.
  - intros name Hq Hne. rewrite Hq, (truthy_Some name Hne).
    exists (Objects.filter_author_username db name).
    split; [reflexivity|]. split; [reflexivity|].
    split; [apply filter_author_username_In|].
    intros Hnone. change (default EmptyString (Some name)) with name.
    cbn [body Response].
    destruct (Objects.filter_author_username db name) as [|p rest] eqn:E;
      [reflexivity|].
    exfalso. assert (Hin : In p (Objects.filter_author_username db name))
      by (rewrite E; now left).
    apply filter_author_username_In in Hin as [Hin Hp]. exact (Hnone p Hin Hp).
  - intros [Hq|Hq]; rewrite Hq; reflexivity.
Qed.

Lemma C6_posts_by_author_witness :
  (exists selected,
      body (fst (serve Sample.db path_list_post
                   (mkRequest GET (Authenticated Sample.bob) ∅ [("username", "alice")])))
      = PostSerializer.many selected /\
      selected = [Sample.first_post]) /\
  body (fst (serve Sample.db path_list_post
               (mkRequest GET (Authenticated Sample.bob) ∅ [("username", "carol")])))
  = DList [] /\
  body (fst (serve Sample.db path_list_post
               (mkRequest GET (Authenticated Sample.bob) ∅ [])))
  = PostSerializer.many [Sample.first_post].
Proof.
  split; [|split].
  - destruct (C6_posts_by_author Sample.db Sample.bob ∅ [("username", "alice")])
      as (_ & H & _).
    destruct (H "alice" eq_refl ltac:(discriminate)) as (sel & Hb & Hs & _).
    exists sel. split; [exact Hb|exact Hs].
  - destruct (C6_posts_by_author Sample.db Sample.bob ∅ [("username", "carol")])
      as (_ & H & _).
    destruct (H "carol" eq_refl ltac:(discriminate)) as (sel & _ & _ & _ & Hz).
    apply Hz. intros p [<-|[]]. discriminate.
  - destruct (C6_posts_by_author Sample.db Sample.bob ∅ []) as (_ & _ & H).
    apply H. left. reflexivity.
Defined.

(** The comparison is case-sensitive: alice's post is not listed under
    [Alice]. *)
Example posts_by_author_case_sensitive :
  body (fst (serve Sample.db path_list_post
               (mkRequest GET (Authenticated Sample.bob) ∅ [("username", "Alice")])))
  = DList [].
Proof. reflexivity. Qed.

(** ** Creating *)

(** The create handler never looks at the caller: two authenticated
    callers sending the same payload get the same answer and leave the
    same database. *)
Lemma create_ignores_caller (db : Db) (u1 u2 : User)
    (d : gmap string json) (q : list (string * string)) :
  serve db path_posts (mkRequest POST (Authenticated u1) d q) =
  serve db path_posts (mkRequest POST (Authenticated u2) d q).
Proof. unfold serve, urlpatterns. now rewrite !dispatch_posts_post. Qed.

(** C2, as claimed, fails: alice posts a valid payload naming bob as
    author; the answer is 201 and the author field is bob, not alice. *)
Lemma C2_author_is_not_the_caller :
  ~ create_sets_author_to_caller Sample.db Sample.alice
      (Sample.payload "A" "B" (user_pk Sample.bob)) [].
Proof.
  unfold create_sets_author_to_caller. intros H.
  destruct H as (_ & o & Hbody & _ & _ & Hauthor).
  - eexists. reflexivity.
  - injection Hbody as <-. discriminate Hauthor.
Qed.

(** C2, amended: a valid payload posted by an authenticated caller is
    answered 201; title, content and author of the returned
    representation are the submitted ones, the author being the reference
    the payload supplies, whoever calls; one row, the one returned, is
    appended to the table. *)
Theorem C2_create_returns_submitted_fields (db : Db) (u : User)
    (d : gmap string json) (q : list (string * string)) (v : PostSerializer.Validated) :
  PostSerializer.is_valid db (PostSerializer.init None d) = Some v ->
  let result := serve db path_posts (mkRequest POST (Authenticated u) d q) in
  status_code (fst result) = 201 /\
  exists saved,
    body (fst result) = DObject (PostSerializer.to_representation saved) /\
    PostSerializer.to_representation saved !! "title" = d !! "title" /\
    PostSerializer.to_representation saved !! "content" = d !! "content" /\
    PostSerializer.to_representation saved !! "author" = d !! "author" /\
    posts (snd result) = (posts db ++ [saved])%list.
Proof.
  intros Hv. cbv zeta. unfold serve, urlpatterns. rewrite dispatch_posts_post.
  unfold PostListCreateView.post. cbn [data]. rewrite Hv.
  apply is_valid_Some_fields in Hv as (Ht & Hc & Ha). cbn in Ht, Hc, Ha.
  unfold PostSerializer.save, PostSerializer.create, Objects.create.
  cbn [PostSerializer.instance fst snd rendered Return Response status_code body
       PostSerializer.data_of default from_option posts].
  split; [reflexivity|]. eexists. split; [reflexivity|].
  rewrite Ht, Hc, Ha.
  repeat split; apply to_representation_fields.
Qed.

Lemma C2_create_returns_submitted_fields_witness :
  status_code (fst (serve Sample.db path_posts
                      (mkRequest POST (Authenticated Sample.alice)
                                 (Sample.payload "A" "B" 2) []))) = 201.
Proof.
  apply (C2_create_returns_submitted_fields Sample.db Sample.alice
           (Sample.payload "A" "B" 2) [] (PostSerializer.mkValidated "A" "B" 2)).
  reflexivity.
Defined.

(** C8: a payload that does not validate, posted by an authenticated
    caller, is answered 400 with the non-empty, field-keyed errors of the
    serializer and leaves the table as it was; a payload without a title
    is such a payload, and its errors have the key [title]. *)
Theorem C8_invalid_create_rejected (db : Db) (u : User)
    (d : gmap string json) (q : list (string * string)) :
  let result := serve db path_posts (mkRequest POST (Authenticated u) d q) in
  (PostSerializer.is_valid db (PostSerializer.init None d) = None ->
   snd result = db /\
   status_code (fst result) = 400 /\
   exists e, body (fst result) = DErrors e /\ e <> ∅ /\
             forall k, is_Some (e !! k) -> k = "title" \/ k = "content" \/ k = "author") /\
  (d !! "title" = None ->
   PostSerializer.is_valid db (PostSerializer.init None d) = None /\
   snd result = db /\
   status_code (fst result) = 400 /\
   exists e, body (fst result) = DErrors e /\ is_Some (e !! "title")).
Proof.
  cbv zeta. unfold serve, urlpatterns. rewrite dispatch_posts_post.
  unfold PostListCreateView.post. cbn [data].
  assert (Hinvalid :
    PostSerializer.is_valid db (PostSerializer.init None d) = None ->
    (let result :=
       match PostSerializer.is_valid db (PostSerializer.init None d) with
       | Some validated_data =>
           let '(saved, db') :=
             PostSerializer.save db (PostSerializer.init None d) validated_data in
           (Return (Response (PostSerializer.data_of saved) (Some HTTP_201_CREATED)), db')
       | None =>
           (Return (Response (DErrors (PostSerializer.errors db (PostSerializer.init None d)))
                             (Some HTTP_400_BAD_REQUEST)), db)
       end in
     snd result = db /\ status_code (rendered (fst result)) = 400 /\
     body (rendered (fst result)) =
       DErrors (PostSerializer.errors db (PostSerializer.init None d)))).
  { intros ->. repeat split. }
  split.
  - intros Hv. destruct (Hinvalid Hv) as (Hdb & Hst & Hb).
    split; [exact Hdb|]. split; [exact Hst|].
    eexists. split; [exact Hb|]. split.
    + now apply is_valid_None_errors.
    + apply errors_field_keyed.
  - intros Ht.
    destruct (errors_title_missing db (PostSerializer.init None d) Ht) as [Hv He].
    destruct (Hinvalid Hv) as (Hdb & Hst & Hb).
    split; [exact Hv|]. split; [exact Hdb|]. split; [exact Hst|].
    eexists. split; [exact Hb|]. rewrite He. eauto.
Qed.

Lemma C8_invalid_create_rejected_witness :
  status_code (fst (serve Sample.db path_posts
                      (mkRequest POST (Authenticated Sample.alice)
                                 (<[ "content" := JStr "B" ]> ∅) []))) = 400 /\
  snd (serve Sample.db path_posts
         (mkRequest POST (Authenticated Sample.alice)
                    (<[ "title" := JNum 5 ]> ∅) [])) = Sample.db.
Proof.
  split.
  - destruct (C8_invalid_create_rejected Sample.db Sample.alice
                (<[ "content" := JStr "B" ]> ∅) []) as [_ Hmissing].
    apply Hmissing. reflexivity.
  - destruct (C8_invalid_create_rejected Sample.db Sample.alice
                (<[ "title" := JNum 5 ]> ∅) []) as [Hinvalid _].
    apply Hinvalid. reflexivity.
Defined.

(** ** Updating *)

(** C3: the PUT handler looks the post up directly.  When no post has the
    identifier it answers 404 with no body, and that answer reaches every
    caller of the endpoint, no object-level check standing before it.
    When the post exists and the data does not validate it answers 400
    with the non-empty, field-keyed errors and writes nothing.  When the
    post exists and the data validates it rewrites the row and answers the
    updated representation with status 200. *)
Theorem C3_put_outcomes (db : Db) (post_id : Z) (request : Request) :
  let result := PostRetriveUpdateDeleteView.put post_id db request in
  let response := rendered (fst result) in
  ((forall p, In p (posts db) -> post_pk p <> post_id) ->
   status_code response = 404 /\ body response = DNone /\ snd result = db /\
   forall (n : N) who d q, Z.of_N n = post_id ->
     status_code (fst (serve db (path_posts_item n) (mkRequest PUT who d q))) = 404) /\
  (forall post, Objects.get db post_id = Some post ->
     let serializer := PostSerializer.init (Some post) (data request) in
     (PostSerializer.is_valid db serializer = None ->
      status_code response = 400 /\ snd result = db /\
      exists e, body response = DErrors e /\ e <> ∅ /\
                forall k, is_Some (e !! k) -> k = "title" \/ k = "content" \/ k = "author") /\
     (forall v, PostSerializer.is_valid db serializer = Some v ->
      status_code response = 200 /\ status_code response <> 201 /\
      exists saved,
        body response = DObject (PostSerializer.to_representation saved) /\
        Objects.get (snd result) post_id = Some saved /\
        post_pk saved = post_id /\
        title saved = PostSerializer.v_title v /\
        content saved = PostSerializer.v_content v)).
Proof.
  cbv zeta. unfold PostRetriveUpdateDeleteView.put. split.
  - intros Hno. apply get_None_iff in Hno. rewrite Hno.
    repeat split. intros n who d q <-.
    unfold serve, urlpatterns. rewrite dispatch_item_put.
    unfold PostRetriveUpdateDeleteView.put. now rewrite Hno.
  - intros post Hget. rewrite Hget.
    unfold PostRetriveUpdateDeleteView.serializer_class. split.
    + intros Hv. rewrite Hv. repeat split.
      eexists. split; [reflexivity|]. split.
      * now apply is_valid_None_errors.
      * apply errors_field_keyed.
    + intros v Hv. rewrite Hv.
      unfold PostSerializer.save, PostSerializer.update.
      cbn [PostSerializer.instance fst snd rendered Return Response status_code body
           PostSerializer.data_of default from_option].
      split; [reflexivity|]. split; [discriminate|].
      pose proof (get_Some_pk _ _ _ Hget) as Hpk.
      eexists. split; [reflexivity|]. split; [|split; [exact Hpk|split; reflexivity]].
      set (post' := mkPost _ _ _ _ _).
      replace post_id with (post_pk post') by exact Hpk.
      apply get_save_eq with (q := post). simpl. now rewrite Hpk.
Qed.

Lemma C3_put_outcomes_witness :
  status_code (rendered (fst (PostRetriveUpdateDeleteView.put 7 Sample.db
     (mkRequest PUT (Authenticated Sample.alice) (Sample.payload "A2" "B2" 1) [])))) = 404 /\
  status_code (rendered (fst (PostRetriveUpdateDeleteView.put 1 Sample.db
     (mkRequest PUT (Authenticated Sample.alice) ∅ [])))) = 400 /\
  status_code (rendered (fst (PostRetriveUpdateDeleteView.put 1 Sample.db
     (mkRequest PUT (Authenticated Sample.alice) (Sample.payload "A2" "B2" 1) [])))) = 200.
Proof.
  split; [|split].
  - destruct (C3_put_outcomes Sample.db 7
        (mkRequest PUT (Authenticated Sample.alice) (Sample.payload "A2" "B2" 1) []))
      as [Hmissing _].
    apply Hmissing. intros p [<-|[]]. simpl. lia.
  - destruct (C3_put_outcomes Sample.db 1
        (mkRequest PUT (Authenticated Sample.alice) ∅ [])) as [_ Hfound].
    destruct (Hfound Sample.first_post eq_refl) as [Hinvalid _].
    apply Hinvalid. reflexivity.
  - destruct (C3_put_outcomes Sample.db 1
        (mkRequest PUT (Authenticated Sample.alice) (Sample.payload "A2" "B2" 1) []))
      as [_ Hfound].
    destruct (Hfound Sample.first_post eq_refl) as [_ Hvalid].
    apply (Hvalid (PostSerializer.mkValidated "A2" "B2" 1)). reflexivity.
Defined.

(** ** Deleting *)

(** C4, as claimed, fails: a DELETE for an identifier no post has is
    answered 404, but with the rendered [detail] of the raised [Http404],
    not with an empty body. *)
Lemma C4_delete_missing_body_not_empty :
  ~ delete_missing_has_empty_body Sample.db 7
      (mkRequest DELETE (Authenticated Sample.alice) ∅ []).
Proof.
  unfold delete_missing_has_empty_body. intros H.
  destruct H as [_ Hbody].
  - reflexivity.
  - intros p [<-|[]]. simpl. lia.
  - discriminate Hbody.
Qed.

(** C4, amended: a DELETE for an identifier no post has is answered 404
    with the [detail] body rendered from the raised [Http404], and the
    table is left as it was; a DELETE by the author of an existing post
    removes the row, leaves every other row in place, and is answered 204
    together with the confirmation message. *)
Theorem C4_delete_outcomes (db : Db) (post_id : N) (who : Identity)
    (d : gmap string json) (q : list (string * string)) :
  let result := serve db (path_posts_item post_id) (mkRequest DELETE who d q) in
  ((forall p, In p (posts db) -> post_pk p <> Z.of_N post_id) ->
   status_code (fst result) = 404 /\
   body (fst result) = detail "No Post matches the given query." /\
   body (fst result) <> DNone /\
   snd result = db) /\
  (forall post,
     Objects.get db (Z.of_N post_id) = Some post ->
     is_author who post = true ->
     status_code (fst result) = 204 /\
     body (fst result) = DObject {[ "message" := JStr "Post deleted successfully." ]} /\
     Objects.get (snd result) (Z.of_N post_id) = None /\
     forall k, k <> Z.of_N post_id -> Objects.get (snd result) k = Objects.get db k).
Proof.
  cbv zeta. unfold serve, urlpatterns. rewrite dispatch_item_delete.
  unfold PostRetriveUpdateDeleteView.delete, get_object_or_404. split.
  - intros Hno. apply get_None_iff in Hno. rewrite Hno.
    repeat split. discriminate.
  - intros post Hget _. rewrite Hget.
    pose proof (get_Some_pk _ _ _ Hget) as Hpk.
    cbn [fst snd rendered Return Response status_code body default from_option].
    split; [reflexivity|]. split; [reflexivity|]. split.
    + rewrite <- Hpk. apply get_delete_eq.
    + intros k Hk. apply get_delete_ne. now rewrite Hpk.
Qed.

Lemma C4_delete_outcomes_witness :
  status_code (fst (serve Sample.db (path_posts_item 7)
                      (mkRequest DELETE (Authenticated Sample.alice) ∅ []))) = 404 /\
  status_code (fst (serve Sample.db (path_posts_item 1)
                      (mkRequest DELETE (Authenticated Sample.alice) ∅ []))) = 204.
Proof.
  split.
  - destruct (C4_delete_outcomes Sample.db 7 (Authenticated Sample.alice) ∅ [])
      as [Hmissing _].
    apply Hmissing. intros p [<-|[]]. simpl. lia.
  - destruct (C4_delete_outcomes Sample.db 1 (Authenticated Sample.alice) ∅ [])
      as [_ Hfound].
    apply (Hfound Sample.first_post); reflexivity.
Defined.

(** ** Properties every request maintains *)

Section Maintained.

Variable P : Db -> Prop.

Hypothesis create_maintains :
  forall db v, P db -> P (snd (PostSerializer.create db v)).
Hypothesis update_maintains :
  forall db post v, In post (posts db) -> P db -> P (snd (PostSerializer.update db post v)).
Hypothesis delete_maintains :
  forall db post, P db -> P (Objects.delete db post).

Lemma maintains_unchanged (h : Handler) :
  (forall db request, snd (h db request) = db) -> maintains P h.
Proof. intros H db request HP. now rewrite H. Qed.

Lemma post_maintains : maintains P PostListCreateView.post.
Proof.
  intros db request HP. unfold PostListCreateView.post.
  destruct (PostSerializer.is_valid db _) as [v|]; [|exact HP].
  unfold PostSerializer.save. cbn [PostSerializer.instance].
  pose proof (create_maintains db v HP) as H.
  now destruct (PostSerializer.create db v).
Qed.

Lemma put_maintains (post_id : Z) : maintains P (PostRetriveUpdateDeleteView.put post_id).
Proof.
  intros db request HP. unfold PostRetriveUpdateDeleteView.put.
  destruct (Objects.get db post_id) as [post|] eqn:Hget; [|exact HP].
  unfold PostRetriveUpdateDeleteView.serializer_class.
  destruct (PostSerializer.is_valid db _) as [v|]; [|exact HP].
  unfold PostSerializer.save. cbn [PostSerializer.instance].
  pose proof (update_maintains db post v (get_Some_In _ _ _ Hget) HP) as H.
  now destruct (PostSerializer.update db post v).
Qed.

Lemma delete_handler_maintains (post_id : Z) :
  maintains P (PostRetriveUpdateDeleteView.delete post_id).
Proof.
  intros db request HP. unfold PostRetriveUpdateDeleteView.delete.
  destruct (get_object_or_404 db post_id) as [exc|post]; [exact HP|].
  now apply delete_maintains.
Qed.

(** [dispatch] maintains what every handler of the view maintains. *)
Lemma dispatch_maintains (view : APIView) :
  (forall m h, handler view m = Some h -> maintains P h) ->
  forall db request, P db -> P (snd (dispatch view db request)).
Proof.
  intros Hview db request HP. unfold dispatch.
  destruct (check_permissions view request); [exact HP|].
  set (h := if bool_decide _ then _ else _).
  assert (Hh : maintains P h).
  { subst h. destruct (bool_decide _); [|now apply maintains_unchanged].
    destruct (handler view (method request)) as [h|] eqn:E;
      [exact (Hview _ _ E)|now apply maintains_unchanged]. }
  specialize (Hh db request HP). now destruct (h db request).
Qed.

Lemma class_view_maintains perms get post put delete :
  (forall h, get = Some h -> maintains P h) ->
  (forall h, post = Some h -> maintains P h) ->
  (forall h, put = Some h -> maintains P h) ->
  (forall h, delete = Some h -> maintains P h) ->
  forall m h, handler (class_view perms get post put delete) m = Some h -> maintains P h.
Proof.
  intros Hg Hpo Hpu Hd m h. destruct m; cbn [class_view handler]; auto.
  - intros [= <-]. now apply maintains_unchanged.
  - discriminate.
Qed.

Lemma api_view_maintains methods perms func :
  maintains P func ->
  forall m h, handler (api_view methods perms func) m = Some h -> maintains P h.
Proof.
  intros Hf m h. cbn [api_view handler].
  destruct (bool_decide (m ∈ methods)); [now intros [= <-]|].
  destruct (bool_decide (m = OPTIONS)); [|discriminate].
  intros [= <-]. now apply maintains_unchanged.
Qed.

(** Every route maintains the property. *)
Lemma serve_maintains (db : Db) (r : Route) (request : Request) :
  P db -> P (snd (serve db r request)).
Proof.
  unfold serve. apply dispatch_maintains. destruct r; cbn [urlpatterns].
  - apply api_view_maintains, maintains_unchanged.
    intros db' rq. unfold homepage_func. now destruct (bool_decide _).
  - apply class_view_maintains; try discriminate.
    + intros h [= <-]. now apply maintains_unchanged.
    + intros h [= <-]. apply post_maintains.
  - apply class_view_maintains; try discriminate.
    + intros h [= <-]. apply maintains_unchanged. intros db' rq.
      unfold PostRetriveUpdateDeleteView.get.
      now destruct (get_object_or_404 db' (Z.of_N post_id)).
    + intros h [= <-]. apply put_maintains.
    + intros h [= <-]. apply delete_handler_maintains.
  - now apply api_view_maintains, maintains_unchanged.
  - now apply api_view_maintains, maintains_unchanged.
Qed.

Lemma serve_all_maintains (reqs : list (Route * Request)) (db : Db) :
  P db -> P (serve_all db reqs).
Proof.
  revert db. induction reqs as [|[r request] rest IH]; intros db HP; [exact HP|].
  cbn [serve_all]. apply IH. now apply serve_maintains.
Qed.

End Maintained.

(** ** Well-formed tables *)

Lemma create_well_formed (db : Db) (v : PostSerializer.Validated) :
  table_well_formed db -> table_well_formed (snd (PostSerializer.create db v)).
Proof.
  intros [Huniq Hkeys]. unfold PostSerializer.create, Objects.create.
  unfold table_well_formed, unique_keys, keys_below_sequence in *.
  cbn [snd next_pk posts]. split.
  - intros p q Hp Hq Hpq.
    apply in_app_or in Hp as [Hp|[<-|[]]]; apply in_app_or in Hq as [Hq|[<-|[]]].
    + now apply Huniq.
    + specialize (Hkeys p Hp). simpl in Hpq. lia.
    + specialize (Hkeys q Hq). simpl in Hpq. lia.
    + reflexivity.
  - intros p Hin. apply in_app_or in Hin as [Hin|[<-|[]]].
    + specialize (Hkeys p Hin). lia.
    + simpl. lia.
Qed.

Lemma update_well_formed (db : Db) (post : Post) (v : PostSerializer.Validated) :
  In post (posts db) ->
  table_well_formed db -> table_well_formed (snd (PostSerializer.update db post v)).
Proof.
  intros Hpost [Huniq Hkeys]. unfold PostSerializer.update, Objects.save.
  unfold table_well_formed, unique_keys, keys_below_sequence in *.
  cbn [snd next_pk posts set_posts post_pk]. split.
  - intros p q Hp Hq Hpq.
    apply in_map_iff in Hp as (r1 & <- & Hr1). apply in_map_iff in Hq as (r2 & <- & Hr2).
    assert (post_pk r1 = post_pk r2) as Hr.
    { destruct (post_pk r1 =? post_pk post) eqn:E1;
        destruct (post_pk r2 =? post_pk post) eqn:E2; cbn [post_pk] in Hpq; lia. }
    now rewrite (Huniq r1 r2 Hr1 Hr2 Hr).
  - intros p Hin. apply in_map_iff in Hin as (r & <- & Hin).
    destruct (post_pk r =? post_pk post); cbn [post_pk]; now apply Hkeys.
Qed.

Lemma delete_well_formed (db : Db) (post : Post) :
  table_well_formed db -> table_well_formed (Objects.delete db post).
Proof.
  intros [Huniq Hkeys]. unfold Objects.delete.
  unfold table_well_formed, unique_keys, keys_below_sequence in *.
  cbn [next_pk posts set_posts]. split.
  - intros p q Hp Hq. apply filter_In in Hp as [Hp _]. apply filter_In in Hq as [Hq _].
    now apply Huniq.
  - intros p Hin. apply filter_In in Hin as [Hin _]. now apply Hkeys.
Qed.

(** Served from a well-formed table, any sequence of requests leaves a
    well-formed table. *)
Lemma serve_all_well_formed (reqs : list (Route * Request)) (db : Db) :
  table_well_formed db -> table_well_formed (serve_all db reqs).
Proof.
  apply serve_all_maintains.
  - apply create_well_formed.
  - apply update_well_formed.
  - apply delete_well_formed.
Qed.

(** ** The author of a post *)

Section AuthorInvariant.

Variables k a : Z.

Lemma create_keeps_author (db : Db) (v : PostSerializer.Validated) :
  author_invariant k a db -> author_invariant k a (snd (PostSerializer.create db v)).
Proof.
  intros (Hk & Hkeys & Hfix). unfold PostSerializer.create, Objects.create.
  unfold author_invariant, keys_below_sequence, author_fixed in *.
  cbn [snd next_pk posts]. repeat split.
  - lia.
  - intros p Hin. apply in_app_or in Hin as [Hin|[<-|[]]].
    + specialize (Hkeys p Hin). lia.
    + simpl. lia.
  - intros p Hin Hp. apply in_app_or in Hin as [Hin|[<-|[]]].
    + now apply Hfix.
    + simpl in Hp. lia.
Qed.

Lemma update_keeps_author (db : Db) (post : Post) (v : PostSerializer.Validated) :
  In post (posts db) ->
  author_invariant k a db -> author_invariant k a (snd (PostSerializer.update db post v)).
Proof.
  intros Hpost (Hk & Hkeys & Hfix). unfold PostSerializer.update, Objects.save.
  unfold author_invariant, keys_below_sequence, author_fixed in *.
  cbn [snd next_pk posts set_posts post_pk]. repeat split; [exact Hk| |].
  - intros p Hin. apply in_map_iff in Hin as (r & Hr & Hin).
    destruct (post_pk r =? post_pk post) eqn:E; subst p.
    + cbn [post_pk]. now apply Hkeys.
    + now apply Hkeys.
  - intros p Hin Hp. apply in_map_iff in Hin as (r & Hr & Hin).
    destruct (post_pk r =? post_pk post) eqn:E; subst p.
    + cbn [post_pk author] in *. now apply Hfix.
    + now apply Hfix.
Qed.

Lemma delete_keeps_author (db : Db) (post : Post) :
  author_invariant k a db -> author_invariant k a (Objects.delete db post).
Proof.
  intros (Hk & Hkeys & Hfix). unfold Objects.delete.
  unfold author_invariant, keys_below_sequence, author_fixed in *.
  cbn [next_pk posts set_posts]. repeat split; [exact Hk| |].
  - intros p Hin. apply filter_In in Hin as [Hin _]. now apply Hkeys.
  - intros p Hin Hp. apply filter_In in Hin as [Hin _]. now apply Hfix.
Qed.

Lemma serve_all_keeps_author (reqs : list (Route * Request)) (db : Db) :
  author_invariant k a db -> author_invariant k a (serve_all db reqs).
Proof.
  apply serve_all_maintains.
  - apply create_keeps_author.
  - apply update_keeps_author.
  - apply delete_keeps_author.
Qed.

End AuthorInvariant.

(** In a well-formed table the invariant holds of a post that is there. *)
Lemma author_invariant_init (db : Db) (k : Z) (post : Post) :
  table_well_formed db ->
  Objects.get db k = Some post -> author_invariant k (author post) db.
Proof.
  intros [Huniq Hkeys] Hget.
  pose proof (get_Some_pk _ _ _ Hget) as Hpk.
  pose proof (get_Some_In _ _ _ Hget) as Hin.
  repeat split; [|exact Hkeys|].
  - rewrite <- Hpk. now apply Hkeys.
  - intros p Hp Hk. now rewrite (Huniq p post Hp Hin) by congruence.
Qed.

(** One update keeps the author of the row it rewrites. *)
Lemma put_keeps_author (db : Db) (post_id : Z) (request : Request)
    (post : Post) (v : PostSerializer.Validated) :
  Objects.get db post_id = Some post ->
  PostSerializer.is_valid db (PostSerializer.init (Some post) (data request)) = Some v ->
  exists saved,
    Objects.get (snd (PostRetriveUpdateDeleteView.put post_id db request)) post_id
      = Some saved /\
    author saved = author post.
Proof.
  intros Hget Hv. unfold PostRetriveUpdateDeleteView.put. rewrite Hget.
  unfold PostRetriveUpdateDeleteView.serializer_class. rewrite Hv.
  unfold PostSerializer.save, PostSerializer.update.
  cbn [PostSerializer.instance snd].
  pose proof (get_Some_pk _ _ _ Hget) as Hpk.
  set (post' := mkPost _ _ _ _ _).
  exists post'. split; [|reflexivity].
  replace post_id with (post_pk post') by exact Hpk.
  apply get_save_eq with (q := post). simpl. now rewrite Hpk.
Qed.

(** C9: a successful PUT on an existing post leaves the author of the
    record as it was; and over any sequence of requests to any of the
    endpoints, served from a well-formed table, a post that is still there
    has the author it started with. *)
Theorem C9_author_never_changes (db : Db) :
  (forall post_id request post v,
      Objects.get db post_id = Some post ->
      PostSerializer.is_valid db (PostSerializer.init (Some post) (data request)) = Some v ->
      exists saved,
        Objects.get (snd (PostRetriveUpdateDeleteView.put post_id db request)) post_id
          = Some saved /\
        author saved = author post) /\
  (table_well_formed db ->
   forall reqs k post post',
     Objects.get db k = Some post ->
     Objects.get (serve_all db reqs) k = Some post' ->
     author post' = author post).
Proof.
  split; [intros post_id request post v; apply put_keeps_author|].
  intros Hwf reqs k post post' Hget Hget'.
  pose proof (author_invariant_init db k post Hwf Hget) as Hinv.
  apply (serve_all_keeps_author k (author post) reqs) in Hinv as (_ & _ & Hfix).
  apply Hfix; [exact (get_Some_In _ _ _ Hget')|exact (get_Some_pk _ _ _ Hget')].
Qed.

Lemma C9_author_never_changes_witness :
  (exists saved,
      Objects.get (snd (PostRetriveUpdateDeleteView.put 1 Sample.db
        (mkRequest PUT (Authenticated Sample.bob) (Sample.payload "A2" "B2" 2) []))) 1
        = Some saved /\
      author saved = author Sample.first_post) /\
  author (mkPost 1 "A3" "B3" 1 100) = author Sample.first_post.
Proof.
  split.
  - destruct (C9_author_never_changes Sample.db) as [Hput _].
    apply (Hput 1 _ Sample.first_post (PostSerializer.mkValidated "A2" "B2" 2));
      reflexivity.
  - destruct (C9_author_never_changes Sample.db) as [_ Hall].
    apply (Hall ltac:(split; [intros p q [<-|[]] [<-|[]] _; reflexivity
                             |intros p [<-|[]]; simpl; lia])
             [(path_posts, mkRequest POST (Authenticated Sample.bob)
                             (Sample.payload "C" "D" 2) []);
              (path_posts_item 1%N, mkRequest PUT (Authenticated Sample.bob)
                             (Sample.payload "A2" "B2" 2) []);
              (path_posts_item 2%N, mkRequest DELETE (Authenticated Sample.alice) ∅ []);
              (path_posts_item 1%N, mkRequest PUT (Authenticated Sample.alice)
                             (Sample.payload "A3" "B3" 1) [])]
             1 Sample.first_post);
      reflexivity.
Defined.

(** ** The author-or-read-only policy *)

(** Safe methods pass the object-level check for every caller and post. *)
Lemma safe_methods_permitted (request : Request) (obj : Post) :
  is_safe (method request) = true ->
  has_object_permission AuthorOrReadOnly request obj = true.
Proof. intros H. unfold AuthorOrReadOnly. cbn. now rewrite H. Qed.

(** The object-level check refuses a write by anyone but the author. *)
Lemma object_check_refuses_non_author (request : Request) (obj : Post) :
  is_safe (method request) = false ->
  is_author (user request) obj = false ->
  check_object_permissions (PostRetriveUpdateDeleteView.as_view (post_pk obj)) request obj
  = inl (permission_denied request).
Proof.
  intros Hm Ha. unfold check_object_permissions. cbn. now rewrite Hm, Ha.
Qed.

(** Neither the PUT nor the DELETE handler runs that check, and
    [check_permissions] lets every request through: on the item endpoint
    no PUT and no DELETE is ever answered 403. *)
Lemma item_writes_never_forbidden (db : Db) (post_id : Z) (who : Identity)
    (d : gmap string json) (q : list (string * string)) :
  status_code (fst (dispatch (PostRetriveUpdateDeleteView.as_view post_id) db
                      (mkRequest PUT who d q))) <> 403 /\
  status_code (fst (dispatch (PostRetriveUpdateDeleteView.as_view post_id) db
                      (mkRequest DELETE who d q))) <> 403.
Proof.
  split.
  - rewrite dispatch_item_put. unfold PostRetriveUpdateDeleteView.put.
    destruct (Objects.get db post_id) as [post|]; [|discriminate].
    unfold PostRetriveUpdateDeleteView.serializer_class.
    destruct (PostSerializer.is_valid db _) as [v|]; [|discriminate].
    destruct (PostSerializer.save db _ v). discriminate.
  - rewrite dispatch_item_delete. unfold PostRetriveUpdateDeleteView.delete.
    destruct (get_object_or_404 db post_id) as [exc|post] eqn:E; [|discriminate].
    unfold get_object_or_404 in E. destruct (Objects.get db post_id); [discriminate|].
    injection E as <-. discriminate.
Qed.

(** C1 fails on the code.  The post with key 1 is alice's.  The policy,
    asked about bob's PUT on it, refuses; yet bob's PUT on the item
    endpoint is answered 200 and rewrites the row, and bob's DELETE is
    answered 204 and removes it: the handlers never ask the policy about
    the post. *)
Theorem C1_non_author_write_goes_through :
  let put_by_bob :=
    mkRequest PUT (Authenticated Sample.bob) (Sample.payload "A2" "B2" 1) [] in
  let delete_by_bob := mkRequest DELETE (Authenticated Sample.bob) ∅ [] in
  is_author (user put_by_bob) Sample.first_post = false /\
  has_object_permission AuthorOrReadOnly put_by_bob Sample.first_post = false /\
  check_object_permissions (PostRetriveUpdateDeleteView.as_view 1)
    put_by_bob Sample.first_post = inl PermissionDenied /\
  status_code (fst (serve Sample.db (path_posts_item 1) put_by_bob)) = 200 /\
  Objects.get (snd (serve Sample.db (path_posts_item 1) put_by_bob)) 1
    = Some (mkPost 1 "A2" "B2" 1 100) /\
  status_code (fst (serve Sample.db (path_posts_item 1) delete_by_bob)) = 204 /\
  Objects.get (snd (serve Sample.db (path_posts_item 1) delete_by_bob)) 1 = None.
Proof. repeat split. Qed.

(** * Further properties of the handlers *)

(** ** Methods a view does not answer *)

(** X1: the homepage answers a GET by any caller, anonymous included,
    with 200 and the fixed greeting, and answers every method other than
    GET and OPTIONS with 405; in both cases the database is left as it
    was. *)
Theorem X1_homepage (db : Db) (who : Identity)
    (d : gmap string json) (q : list (string * string)) :
  serve db path_homepage (mkRequest GET who d q) =
    (Response (DObject {[ "message" := JStr "Hello, World!" ]}) (Some HTTP_200_OK), db) /\
  (forall m, m <> GET -> m <> OPTIONS ->
     status_code (fst (serve db path_homepage (mkRequest m who d q))) = 405 /\
     snd (serve db path_homepage (mkRequest m who d q)) = db).
Proof.
  split; [reflexivity|].
  intros m Hget Hopt. destruct m; try congruence; split; reflexivity.
Qed.

Lemma X1_homepage_witness :
  status_code (fst (serve Sample.db path_homepage
                      (mkRequest POST AnonymousUser ∅ []))) = 405.
Proof.
  destruct (X1_homepage Sample.db AnonymousUser ∅ []) as [_ H].
  apply (H POST); discriminate.
Defined.

(** X2: on the collection an anonymous caller may only read: every
    request of his with a method that is not safe, a valid POST included,
    is refused by the permission check with the not-authenticated
    response, the handler does not run and nothing is persisted. *)
Theorem X2_anonymous_write_refused (db : Db) (m : Method)
    (d : gmap string json) (q : list (string * string)) :
  is_safe m = false ->
  serve db path_posts (mkRequest m AnonymousUser d q) =
    (handle_exception NotAuthenticated, db).
Proof. intros H. destruct m; try discriminate H; reflexivity. Qed.

Lemma X2_anonymous_write_refused_witness :
  is_Some (PostSerializer.is_valid Sample.db
             (PostSerializer.init None (Sample.payload "A" "B" 1))) /\
  serve Sample.db path_posts
    (mkRequest POST AnonymousUser (Sample.payload "A" "B" 1) []) =
  (handle_exception NotAuthenticated, Sample.db).
Proof.
  split; [eexists; reflexivity|].
  apply (X2_anonymous_write_refused Sample.db POST). reflexivity.
Defined.

(** X3: the two function views answer GET only.  Called by an
    authenticated user with any method other than GET and OPTIONS they
    answer 405; called anonymously they refuse whatever the method; the
    function does not run and the database is left as it was. *)
Theorem X3_function_views_get_only (db : Db) (m : Method)
    (d : gmap string json) (q : list (string * string)) :
  (forall u, m <> GET -> m <> OPTIONS ->
     status_code (fst (serve db path_current_user (mkRequest m (Authenticated u) d q))) = 405 /\
     snd (serve db path_current_user (mkRequest m (Authenticated u) d q)) = db /\
     status_code (fst (serve db path_list_post (mkRequest m (Authenticated u) d q))) = 405 /\
     snd (serve db path_list_post (mkRequest m (Authenticated u) d q)) = db) /\
  serve db path_current_user (mkRequest m AnonymousUser d q) =
    (handle_exception NotAuthenticated, db) /\
  serve db path_list_post (mkRequest m AnonymousUser d q) =
    (handle_exception NotAuthenticated, db).
Proof.
  split; [|split; reflexivity].
  intros u Hget Hopt. destruct m; try congruence; repeat split.
Qed.

Lemma X3_function_views_get_only_witness :
  status_code (fst (serve Sample.db path_list_post
                      (mkRequest DELETE (Authenticated Sample.alice) ∅ []))) = 405.
Proof.
  destruct (X3_function_views_get_only Sample.db DELETE ∅ []) as [H _].
  apply (H Sample.alice); discriminate.
Defined.

(** X4: the class-based views answer 405 for the methods they do not
    define and leave the database as it was: POST and PATCH on an item,
    whoever calls, and PUT, PATCH and DELETE on the collection for an
    authenticated caller. *)
Theorem X4_undefined_methods (db : Db) (post_id : N) (who : Identity) (u : User)
    (d : gmap string json) (q : list (string * string)) :
  let not_allowed r request :=
    status_code (fst (serve db r request)) = 405 /\ snd (serve db r request) = db in
  not_allowed (path_posts_item post_id) (mkRequest POST who d q) /\
  not_allowed (path_posts_item post_id) (mkRequest PATCH who d q) /\
  not_allowed path_posts (mkRequest PUT (Authenticated u) d q) /\
  not_allowed path_posts (mkRequest PATCH (Authenticated u) d q) /\
  not_allowed path_posts (mkRequest DELETE (Authenticated u) d q).
Proof. cbv zeta. repeat split. Qed.

(** ** What changes the table *)

Lemma item_get_unchanged (post_id : Z) (db : Db) (request : Request) :
  snd (PostRetriveUpdateDeleteView.get post_id db request) = db.
Proof.
  unfold PostRetriveUpdateDeleteView.get.
  now destruct (get_object_or_404 db post_id).
Qed.

(** X5: only a POST on the collection and a PUT or a DELETE on an item
    can change the database; every other request, on any route, with any
    method, by any caller, leaves it as it was. *)
Theorem X5_only_writes_change_the_table (db : Db) (r : Route) (request : Request) :
  snd (serve db r request) <> db ->
  (r = path_posts /\ method request = POST) \/
  (exists post_id, r = path_posts_item post_id /\
                   (method request = PUT \/ method request = DELETE)).
Proof.
  intros Hchanged. destruct request as [m who d q].
  destruct r as [| |post_id| |].
  - exfalso. apply Hchanged. destruct m; reflexivity.
  - destruct m; try (left; split; reflexivity);
      exfalso; apply Hchanged; destruct who; reflexivity.
  - destruct m; try (right; exists post_id; split; [reflexivity|]; auto; fail);
      exfalso; apply Hchanged; try reflexivity.
    + unfold serve, urlpatterns. rewrite dispatch_item_get. apply item_get_unchanged.
    + unfold serve, urlpatterns.
      rewrite (dispatch_handler _ db _ (PostRetriveUpdateDeleteView.get (Z.of_N post_id)));
        [apply item_get_unchanged|reflexivity| |reflexivity].
      simpl. unfold View_http_method_names. set_solver.
  - exfalso. apply Hchanged. destruct m, who; reflexivity.
  - exfalso. apply Hchanged. destruct m, who; reflexivity.
Qed.

Lemma X5_only_writes_change_the_table_witness :
  (path_posts = path_posts /\ POST = POST) \/
  (exists post_id, path_posts = path_posts_item post_id /\ (POST = PUT \/ POST = DELETE)).
Proof.
  apply (X5_only_writes_change_the_table Sample.db path_posts
           (mkRequest POST (Authenticated Sample.alice) (Sample.payload "C" "D" 1) [])).
  intros H. apply (f_equal next_pk) in H. discriminate H.
Defined.

(** ** Updating twice, and what an update leaves alone *)

(** Validation reads the database through the user table only, and does
    not read the instance. *)
Lemma is_valid_same_users (db1 db2 : Db) (i1 i2 : option Post) (d : gmap string json) :
  users db1 = users db2 ->
  PostSerializer.is_valid db1 (PostSerializer.init i1 d) =
  PostSerializer.is_valid db2 (PostSerializer.init i2 d).
Proof.
  intros H. unfold PostSerializer.is_valid, PostSerializer.run_author, Objects.get_user.
  cbn [PostSerializer.initial_data]. now rewrite H.
Qed.

Lemma errors_same_users (db1 db2 : Db) (i1 i2 : option Post) (d : gmap string json) :
  users db1 = users db2 ->
  PostSerializer.errors db1 (PostSerializer.init i1 d) =
  PostSerializer.errors db2 (PostSerializer.init i2 d).
Proof.
  intros H. unfold PostSerializer.errors, PostSerializer.run_author, Objects.get_user.
  cbn [PostSerializer.initial_data]. now rewrite H.
Qed.

Lemma save_idempotent (db : Db) (p : Post) :
  Objects.save (Objects.save db p) p = Objects.save db p.
Proof.
  unfold Objects.save, set_posts. cbn [users posts next_pk clock]. f_equal.
  rewrite map_map. apply map_ext. intros r.
  destruct (post_pk r =? post_pk p) eqn:E; [|now rewrite E].
  now rewrite Z.eqb_refl.
Qed.

Lemma save_keys (db : Db) (p : Post) :
  map post_pk (posts (Objects.save db p)) = map post_pk (posts db).
Proof.
  unfold Objects.save, set_posts. cbn [posts]. rewrite map_map. apply map_ext.
  intros r. destruct (post_pk r =? post_pk p) eqn:E; [|reflexivity].
  apply Z.eqb_eq in E. now rewrite E.
Qed.

(** X6: PUT is idempotent.  Sending the same PUT a second time gives the
    same outcome as the first time and leaves the database as the first
    one left it, whether the first was answered 404, 400 or 200. *)
Theorem X6_put_idempotent (db : Db) (post_id : Z) (request : Request) :
  let once := PostRetriveUpdateDeleteView.put post_id db request in
  PostRetriveUpdateDeleteView.put post_id (snd once) request = once.
Proof.
  cbv zeta. unfold PostRetriveUpdateDeleteView.put at 2.
  destruct (Objects.get db post_id) as [post|] eqn:Hget.
  - unfold PostRetriveUpdateDeleteView.serializer_class.
    destruct (PostSerializer.is_valid db _) as [v|] eqn:Hv.
    + unfold PostSerializer.save, PostSerializer.update.
      cbn [PostSerializer.instance snd].
      set (post' := mkPost _ _ _ _ _).
      pose proof (get_Some_pk _ _ _ Hget) as Hpk.
      assert (Hget' : Objects.get (Objects.save db post') post_id = Some post').
      { replace post_id with (post_pk post') by exact Hpk.
        apply get_save_eq with (q := post). simpl. now rewrite Hpk. }
      unfold PostRetriveUpdateDeleteView.put. rewrite Hget'.
      unfold PostRetriveUpdateDeleteView.serializer_class.
      rewrite (is_valid_same_users (Objects.save db post') db (Some post') (Some post))
        by reflexivity.
      rewrite Hv. unfold PostSerializer.save, PostSerializer.update.
      cbn [PostSerializer.instance].
      change (mkPost (post_pk post') (PostSerializer.v_title v) (PostSerializer.v_content v)
                     (author post') (created_at post')) with post'.
      rewrite Hget, Hv, save_idempotent. reflexivity.
    + cbn [snd]. unfold PostRetriveUpdateDeleteView.put. rewrite Hget.
      unfold PostRetriveUpdateDeleteView.serializer_class. now rewrite Hv.
  - cbn [snd]. unfold PostRetriveUpdateDeleteView.put. now rewrite Hget.
Qed.

(** X7: a PUT touches the addressed post and nothing else: every other
    identifier answers as before, the table keeps its keys in their order
    (no row is added, dropped or moved), and the user table and the key
    sequence are as they were. *)
Theorem X7_put_touches_only_its_post (db : Db) (post_id : Z) (request : Request) :
  let db' := snd (PostRetriveUpdateDeleteView.put post_id db request) in
  (forall k, k <> post_id -> Objects.get db' k = Objects.get db k) /\
  map post_pk (posts db') = map post_pk (posts db) /\
  users db' = users db /\
  next_pk db' = next_pk db.
Proof.
  cbv zeta. unfold PostRetriveUpdateDeleteView.put.
  destruct (Objects.get db post_id) as [post|] eqn:Hget; [|repeat split].
  unfold PostRetriveUpdateDeleteView.serializer_class.
  destruct (PostSerializer.is_valid db _) as [v|]; [|repeat split].
  unfold PostSerializer.save, PostSerializer.update. cbn [PostSerializer.instance snd].
  pose proof (get_Some_pk _ _ _ Hget) as Hpk.
  split; [|split; [apply save_keys|split; reflexivity]].
  intros k Hk. apply get_save_ne. cbn [post_pk]. congruence.
Qed.

Lemma X7_put_touches_only_its_post_witness :
  Objects.get (snd (PostRetriveUpdateDeleteView.put 1 Sample.db_four
     (mkRequest PUT (Authenticated Sample.alice) (Sample.payload "A2" "B2" 1) []))) 3
  = Objects.get Sample.db_four 3.
Proof.
  apply (X7_put_touches_only_its_post Sample.db_four 1
           (mkRequest PUT (Authenticated Sample.alice) (Sample.payload "A2" "B2" 1) [])).
  lia.
Defined.

(** ** Writing, then reading *)

Lemma get_create_new (db : Db) (t c : string) (a : Z) :
  keys_below_sequence db ->
  Objects.get (snd (Objects.create db t c a)) (next_pk db) = Some (fst (Objects.create db t c a)).
Proof.
  unfold keys_below_sequence, Objects.get, Objects.create. cbn [fst snd posts].
  induction (posts db) as [|r rows IH]; intros Hkeys; simpl.
  - now rewrite Z.eqb_refl.
  - destruct (post_pk r =? next_pk db) eqn:E.
    + apply Z.eqb_eq in E. specialize (Hkeys r (or_introl eq_refl)). lia.
    + apply IH. intros p Hp. apply Hkeys. now right.
Qed.

(** X8: what is created can be retrieved.  In a table whose keys are all
    behind the key sequence, after a valid POST by an authenticated caller
    a GET on the item endpoint for the [id] of the returned representation
    is answered 200 with that same representation, and reads only. *)
Theorem X8_create_then_retrieve (db : Db) (u : User) (d : gmap string json)
    (q : list (string * string)) (v : PostSerializer.Validated)
    (n : N) (o : gmap string json)
    (who' : Identity) (d' : gmap string json) (q' : list (string * string)) :
  keys_below_sequence db ->
  PostSerializer.is_valid db (PostSerializer.init None d) = Some v ->
  let created := serve db path_posts (mkRequest POST (Authenticated u) d q) in
  body (fst created) = DObject o ->
  o !! "id" = Some (JNum (Z.of_N n)) ->
  let fetched := serve (snd created) (path_posts_item n) (mkRequest GET who' d' q') in
  status_code (fst fetched) = 200 /\
  body (fst fetched) = DObject o /\
  snd fetched = snd created.
Proof.
  intros Hkeys Hv. cbv zeta. unfold serve, urlpatterns.
  rewrite dispatch_posts_post, dispatch_item_get.
  unfold PostListCreateView.post. cbn [data]. rewrite Hv.
  unfold PostSerializer.save, PostSerializer.create. cbn [PostSerializer.instance].
  pose proof (get_create_new db (PostSerializer.v_title v) (PostSerializer.v_content v)
                (PostSerializer.v_author v) Hkeys) as Hnew.
  destruct (Objects.create db _ _ _) as [saved db'] eqn:Hc.
  cbn [fst snd rendered Return Response body PostSerializer.data_of] in *.
  intros [= <-] Hid.
  assert (Hpk : post_pk saved = next_pk db).
  { unfold Objects.create in Hc. now injection Hc as <- _. }
  destruct (to_representation_fields saved) as (Hid' & _).
  rewrite Hid' in Hid. injection Hid as Hn.
  unfold PostRetriveUpdateDeleteView.get, get_object_or_404.
  rewrite <- Hn, Hpk, Hnew. repeat split.
Qed.

Lemma X8_create_then_retrieve_witness :
  status_code (fst (serve
    (snd (serve Sample.db path_posts
            (mkRequest POST (Authenticated Sample.bob) (Sample.payload "C" "D" 2) [])))
    (path_posts_item 2) (mkRequest GET AnonymousUser ∅ []))) = 200.
Proof.
  apply (X8_create_then_retrieve Sample.db Sample.bob (Sample.payload "C" "D" 2) []
           (PostSerializer.mkValidated "C" "D" 2) 2
           (PostSerializer.to_representation (mkPost 2 "C" "D" 2 200))
           AnonymousUser ∅ []).
  - intros p [<-|[]]. simpl. lia.
  - reflexivity.
  - reflexivity.
  - reflexivity.
Defined.

(** X9: what is updated can be retrieved.  After a PUT with valid data on
    an existing post, a GET for the same identifier is answered with the
    very response the PUT gave, status 200 and the updated
    representation, and reads only. *)
Theorem X9_update_then_retrieve (db : Db) (n : N) (who : Identity)
    (d : gmap string json) (q : list (string * string))
    (post : Post) (v : PostSerializer.Validated)
    (who' : Identity) (d' : gmap string json) (q' : list (string * string)) :
  Objects.get db (Z.of_N n) = Some post ->
  PostSerializer.is_valid db (PostSerializer.init (Some post) d) = Some v ->
  let updated := serve db (path_posts_item n) (mkRequest PUT who d q) in
  let fetched := serve (snd updated) (path_posts_item n) (mkRequest GET who' d' q') in
  fst fetched = fst updated /\ snd fetched = snd updated.
Proof.
  intros Hget Hv. cbv zeta. unfold serve, urlpatterns.
  rewrite dispatch_item_put, dispatch_item_get.
  unfold PostRetriveUpdateDeleteView.put. cbn [data]. rewrite Hget.
  unfold PostRetriveUpdateDeleteView.serializer_class. rewrite Hv.
  unfold PostSerializer.save, PostSerializer.update. cbn [PostSerializer.instance fst snd].
  set (post' := mkPost _ _ _ _ _).
  pose proof (get_Some_pk _ _ _ Hget) as Hpk.
  assert (Hget' : Objects.get (Objects.save db post') (Z.of_N n) = Some post').
  { replace (Z.of_N n) with (post_pk post') by exact Hpk.
    apply get_save_eq with (q := post). simpl. now rewrite Hpk. }
  unfold PostRetriveUpdateDeleteView.get, get_object_or_404. rewrite Hget'.
  split; reflexivity.
Qed.

Lemma X9_update_then_retrieve_witness :
  fst (serve
    (snd (serve Sample.db (path_posts_item 1)
            (mkRequest PUT (Authenticated Sample.alice) (Sample.payload "A2" "B2" 1) [])))
    (path_posts_item 1) (mkRequest GET AnonymousUser ∅ []))
  = fst (serve Sample.db (path_posts_item 1)
           (mkRequest PUT (Authenticated Sample.alice) (Sample.payload "A2" "B2" 1) [])).
Proof.
  apply (X9_update_then_retrieve Sample.db 1 (Authenticated Sample.alice)
           (Sample.payload "A2" "B2" 1) [] Sample.first_post
           (PostSerializer.mkValidated "A2" "B2" 1) AnonymousUser ∅ []);
    reflexivity.
Defined.

(** X10: what is deleted is gone.  After a DELETE on an existing post,
    a GET, a PUT and a second DELETE for the same identifier are each
    answered 404 and leave the database as the first DELETE left it. *)
Theorem X10_deleted_post_is_gone (db : Db) (n : N) (who : Identity)
    (d : gmap string json) (q : list (string * string)) (post : Post)
    (who' : Identity) (d' : gmap string json) (q' : list (string * string)) :
  Objects.get db (Z.of_N n) = Some post ->
  let db' := snd (serve db (path_posts_item n) (mkRequest DELETE who d q)) in
  let gone m :=
    status_code (fst (serve db' (path_posts_item n) (mkRequest m who' d' q'))) = 404 /\
    snd (serve db' (path_posts_item n) (mkRequest m who' d' q')) = db' in
  gone GET /\ gone PUT /\ gone DELETE.
Proof.
  intros Hget. cbv zeta. unfold serve, urlpatterns.
  assert (Hdb : snd (dispatch (PostRetriveUpdateDeleteView.as_view (Z.of_N n)) db
                       (mkRequest DELETE who d q)) = Objects.delete db post).
  { rewrite dispatch_item_delete.
    unfold PostRetriveUpdateDeleteView.delete, get_object_or_404. now rewrite Hget. }
  rewrite Hdb. rewrite dispatch_item_get, dispatch_item_put, dispatch_item_delete.
  pose proof (get_Some_pk _ _ _ Hget) as Hpk.
  assert (Hgone : Objects.get (Objects.delete db post) (Z.of_N n) = None).
  { rewrite <- Hpk. apply get_delete_eq. }
  unfold PostRetriveUpdateDeleteView.get, PostRetriveUpdateDeleteView.put,
    PostRetriveUpdateDeleteView.delete, get_object_or_404.
  rewrite Hgone. repeat split.
Qed.

Lemma X10_deleted_post_is_gone_witness :
  status_code (fst (serve
    (snd (serve Sample.db (path_posts_item 1)
            (mkRequest DELETE (Authenticated Sample.alice) ∅ [])))
    (path_posts_item 1) (mkRequest GET AnonymousUser ∅ []))) = 404.
Proof.
  apply (X10_deleted_post_is_gone Sample.db 1 (Authenticated Sample.alice) ∅ []
           Sample.first_post AnonymousUser ∅ []).
  reflexivity.
Defined.

(** ** Refused and failed requests *)

Lemma reads_leave_table (db : Db) (r : Route) (m : Method) (who : Identity)
    (d : gmap string json) (q : list (string * string)) :
  (r = path_posts -> m <> POST) ->
  (forall post_id, r = path_posts_item post_id -> m <> PUT /\ m <> DELETE) ->
  snd (serve db r (mkRequest m who d q)) = db.
Proof.
  destruct r as [| |post_id| |]; intros Hposts Hitem.
  - destruct m; reflexivity.
  - destruct m; try (exfalso; now apply (Hposts eq_refl)); destruct who; reflexivity.
  - pose proof (Hitem post_id eq_refl) as [Hput Hdel].
    destruct m; try congruence; try reflexivity.
    + unfold serve, urlpatterns. rewrite dispatch_item_get. apply item_get_unchanged.
    + unfold serve, urlpatterns.
      rewrite (dispatch_handler _ db _ (PostRetriveUpdateDeleteView.get (Z.of_N post_id)));
        [apply item_get_unchanged|reflexivity| |reflexivity].
      apply list_elem_of_In. simpl. tauto.
  - destruct m, who; reflexivity.
  - destruct m, who; reflexivity.
Qed.

(** X11: a request that is answered with an error status (400 or above)
    has written nothing: on every route, for every method, caller and
    payload, the database is as it was. *)
Theorem X11_errors_write_nothing (db : Db) (r : Route) (request : Request) :
  400 <= status_code (fst (serve db r request)) ->
  snd (serve db r request) = db.
Proof.
  destruct request as [m who d q]. intros Hstatus.
  destruct r as [| |post_id| |];
    try (apply reads_leave_table; [intros E; discriminate E|intros i E; discriminate E]).
  - destruct m;
      try (apply reads_leave_table; [discriminate|intros i E; discriminate E]).
    destruct who as [|u]; [reflexivity|]. revert Hstatus.
    unfold serve, urlpatterns. rewrite dispatch_posts_post.
    unfold PostListCreateView.post.
    destruct (PostSerializer.is_valid db _) as [v|]; [|reflexivity].
    destruct (PostSerializer.save db _ v). cbn. unfold HTTP_201_CREATED. lia.
  - destruct m;
      try (apply reads_leave_table; [intros E; discriminate E
                                    |intros i _; split; discriminate]).
    + revert Hstatus. unfold serve, urlpatterns. rewrite dispatch_item_put.
      unfold PostRetriveUpdateDeleteView.put.
      destruct (Objects.get db _) as [post|]; [|reflexivity].
      unfold PostRetriveUpdateDeleteView.serializer_class.
      destruct (PostSerializer.is_valid db _) as [v|]; [|reflexivity].
      destruct (PostSerializer.save db _ v). cbn. unfold HTTP_200_OK. lia.
    + revert Hstatus. unfold serve, urlpatterns. rewrite dispatch_item_delete.
      unfold PostRetriveUpdateDeleteView.delete.
      destruct (get_object_or_404 db _) as [exc|post]; [reflexivity|].
      cbn. unfold HTTP_204_NO_CONTENT. lia.
Qed.

Lemma X11_errors_write_nothing_witness :
  snd (serve Sample.db (path_posts_item 1)
         (mkRequest PUT (Authenticated Sample.alice) ∅ [])) = Sample.db.
Proof.
  apply (X11_errors_write_nothing Sample.db (path_posts_item 1)
           (mkRequest PUT (Authenticated Sample.alice) ∅ [])).
  vm_compute. discriminate.
Defined.

(** ** The table over a run of requests *)

(** X12: identifiers stay unique.  Starting from an empty post table, and
    more generally from any table with unique keys all behind the key
    sequence, no sequence of requests to the five routes leads to a table
    in which two different rows share an identifier or a row is ahead of
    the key sequence. *)
Theorem X12_identifiers_stay_unique (reqs : list (Route * Request)) :
  (forall us np ck, table_well_formed (serve_all (mkDb us [] np ck) reqs)) /\
  (forall db, table_well_formed db -> table_well_formed (serve_all db reqs)).
Proof.
  split.
  - intros us np ck. apply serve_all_well_formed. split; [intros p q []|intros p []].
  - intros db. apply serve_all_well_formed.
Qed.

Lemma X12_identifiers_stay_unique_witness :
  table_well_formed
    (serve_all Sample.db
       [(path_posts, mkRequest POST (Authenticated Sample.bob) (Sample.payload "C" "D" 2) []);
        (path_posts_item 1%N, mkRequest DELETE (Authenticated Sample.alice) ∅ []);
        (path_posts, mkRequest POST (Authenticated Sample.alice) (Sample.payload "E" "F" 1) [])]).
Proof.
  apply (X12_identifiers_stay_unique _).
  split.
  - intros p q [<-|[]] [<-|[]] _. reflexivity.
  - intros p [<-|[]]. simpl. lia.
Defined.

(** ** The two listings *)

(** X13: without a usable [username] parameter (absent, or empty) the
    posts-by-author endpoint answers an authenticated caller exactly what
    the collection endpoint answers to a GET: the same status and the same
    list. *)
Theorem X13_unfiltered_listing_is_the_collection (db : Db) (u : User) (who : Identity)
    (d d' : gmap string json) (q q' : list (string * string)) :
  truthy (QueryDict_get q "username") = false ->
  fst (serve db path_list_post (mkRequest GET (Authenticated u) d q)) =
  fst (serve db path_posts (mkRequest GET who d' q')).
Proof.
  intros H. unfold serve, urlpatterns.
  rewrite dispatch_list_post_get, dispatch_posts_get.
  unfold list_posts_for_author_func, PostListCreateView.get.
  cbn [query_params]. now rewrite H.
Qed.

Lemma X13_unfiltered_listing_is_the_collection_witness :
  fst (serve Sample.db_four path_list_post
         (mkRequest GET (Authenticated Sample.bob) ∅ [("username", EmptyString)])) =
  fst (serve Sample.db_four path_posts (mkRequest GET AnonymousUser ∅ [])).
Proof.
  apply (X13_unfiltered_listing_is_the_collection Sample.db_four Sample.bob AnonymousUser).
  reflexivity.
Defined.

(** X14: the collection listing follows the writes.  After a valid POST
    by an authenticated caller the listing is the former listing with the
    returned representation added at the end; after a DELETE on an
    existing post the listing is the former one without the rows of that
    identifier, the others in their order. *)
Theorem X14_listing_follows_writes (db : Db)
    (who' : Identity) (d' : gmap string json) (q' : list (string * string)) :
  let listing db :=
    body (fst (serve db path_posts (mkRequest GET who' d' q'))) in
  (forall u d q v,
      PostSerializer.is_valid db (PostSerializer.init None d) = Some v ->
      let created := serve db path_posts (mkRequest POST (Authenticated u) d q) in
      exists o,
        body (fst created) = DObject o /\
        listing (snd created) =
          DList (map PostSerializer.to_representation (posts db) ++ [o])) /\
  (forall (n : N) who d q post,
      Objects.get db (Z.of_N n) = Some post ->
      let deleted := serve db (path_posts_item n) (mkRequest DELETE who d q) in
      listing (snd deleted) =
        DList (map PostSerializer.to_representation
                 (List.filter (fun r => negb (post_pk r =? Z.of_N n)) (posts db)))).
Proof.
  cbv zeta. unfold serve, urlpatterns. split.
  - intros u d q v Hv. rewrite dispatch_posts_post, dispatch_posts_get.
    unfold PostListCreateView.post. cbn [data]. rewrite Hv.
    unfold PostSerializer.save, PostSerializer.create, Objects.create.
    cbn [PostSerializer.instance fst snd rendered Return Response body
         PostSerializer.data_of].
    eexists. split; [reflexivity|].
    unfold PostListCreateView.get, PostSerializer.many, Objects.all.
    cbn [fst rendered Return Response body posts]. now rewrite map_app.
  - intros n who d q post Hget. rewrite dispatch_item_delete, dispatch_posts_get.
    unfold PostRetriveUpdateDeleteView.delete, get_object_or_404. rewrite Hget.
    cbn [snd]. rewrite <- (get_Some_pk _ _ _ Hget). reflexivity.
Qed.

Lemma X14_listing_follows_writes_witness :
  body (fst (serve
    (snd (serve Sample.db_four (path_posts_item 2)
            (mkRequest DELETE (Authenticated Sample.alice) ∅ [])))
    path_posts (mkRequest GET AnonymousUser ∅ []))) =
  DList (map PostSerializer.to_representation
           [mkPost 1 "A" "B" 1 100; mkPost 3 "E" "F" 2 102; mkPost 4 "G" "H" 1 103]).
Proof.
  destruct (X14_listing_follows_writes Sample.db_four AnonymousUser ∅ []) as [_ H].
  apply (H 2%N (Authenticated Sample.alice) ∅ [] (mkPost 2 "C" "D" 1 101)).
  reflexivity.
Defined.

(** ** Creating twice *)

Lemma dispatch_posts_post_valid (db : Db) (u : User) (d : gmap string json)
    (q : list (string * string)) (v : PostSerializer.Validated) :
  PostSerializer.is_valid db (PostSerializer.init None d) = Some v ->
  dispatch PostListCreateView.as_view db (mkRequest POST (Authenticated u) d q) =
  (Response (PostSerializer.data_of (fst (PostSerializer.create db v)))
            (Some HTTP_201_CREATED),
   snd (PostSerializer.create db v)).
Proof.
  intros Hv. rewrite dispatch_posts_post. unfold PostListCreateView.post.
  cbn [data]. rewrite Hv. unfold PostSerializer.save. cbn [PostSerializer.instance].
  now destruct (PostSerializer.create db v).
Qed.

(** X15: POST is not idempotent: the create handler does not look for an
    existing post.  The same valid payload posted twice by an
    authenticated caller is answered 201 both times and leaves two new
    rows with the same title, content and author and two different
    identifiers, the second following the first. *)
Theorem X15_create_twice_makes_two_posts (db : Db) (u : User) (d : gmap string json)
    (q : list (string * string)) (v : PostSerializer.Validated) :
  PostSerializer.is_valid db (PostSerializer.init None d) = Some v ->
  let request := mkRequest POST (Authenticated u) d q in
  let first := serve db path_posts request in
  let second := serve (snd first) path_posts request in
  status_code (fst first) = 201 /\
  status_code (fst second) = 201 /\
  exists p1 p2,
    posts (snd second) = (posts db ++ [p1; p2])%list /\
    post_pk p1 = next_pk db /\
    post_pk p2 = next_pk db + 1 /\
    title p1 = title p2 /\ content p1 = content p2 /\ author p1 = author p2.
Proof.
  intros Hv. cbv zeta. unfold serve, urlpatterns.
  rewrite (dispatch_posts_post_valid db u d q v Hv). cbn [fst snd].
  assert (Hv1 : PostSerializer.is_valid (snd (PostSerializer.create db v))
                  (PostSerializer.init None d) = Some v).
  { rewrite <- Hv. now apply is_valid_same_users. }
  rewrite (dispatch_posts_post_valid _ u d q v Hv1).
  unfold PostSerializer.create, Objects.create.
  cbn [fst snd Response status_code default from_option posts next_pk clock].
  split; [reflexivity|]. split; [reflexivity|].
  eexists _, _. rewrite <- app_assoc. split; [reflexivity|]. repeat split.
Qed.

Lemma X15_create_twice_makes_two_posts_witness :
  status_code (fst (serve
    (snd (serve Sample.db path_posts
            (mkRequest POST (Authenticated Sample.bob) (Sample.payload "C" "D" 2) [])))
    path_posts
    (mkRequest POST (Authenticated Sample.bob) (Sample.payload "C" "D" 2) []))) = 201.
Proof.
  apply (X15_create_twice_makes_two_posts Sample.db Sample.bob (Sample.payload "C" "D" 2) []
           (PostSerializer.mkValidated "C" "D" 2)).
  reflexivity.
Defined.
